(** * The Linode provider of spread: a shallow embedding of [spread/linode.go]

    The development follows the source file top to bottom.  Go strings are
    byte strings and are modelled by [string] (a list of 8-bit [ascii]);
    Go [int] values are identifiers that the code only copies and compares,
    so they are modelled by [Z].  A Go function that may panic returns an
    [Outcome]; a method that talks to the provider runs in the monad [M],
    which threads the fields of the [linode] struct and the list of requests
    issued so far.  Logging calls ([log], [logf], [printf], [debugf]) have no
    effect on results and are left out. *)

From Stdlib Require Import ZArith List String Ascii Bool Lia DecimalString.
Import ListNotations.

#[local] Set Warnings "-register-all".
#[local] Open Scope string_scope.
#[local] Open Scope Z_scope.

(** ** Go string primitives *)

Inductive panic : Type :=
| IndexOutOfRange
| NilDereference.

(** What a call produces: a normal return or a run-time panic. *)
Inductive Outcome (A : Type) : Type :=
| Ret (a : A)
| Panic (p : panic).

Arguments Ret {A} a.
Arguments Panic {A} p.

Definition obind {A B : Type} (o : Outcome A) (k : A -> Outcome B) : Outcome B :=
  match o with
  | Ret a => k a
  | Panic p => Panic p
  end.

Notation "'try' x <- o ; k" := (obind o (fun x => k))
  (at level 10, x name, o at level 100, k at level 200).

(** [s[i]] on a Go string. *)
Fixpoint string_index (s : string) (i : nat) : Outcome ascii :=
  match s, i with
  | EmptyString, _ => Panic IndexOutOfRange
  | String b _, O => Ret b
  | String _ rest, S j => string_index rest j
  end.

(** [s[i:]] on a Go string. *)
Fixpoint string_from (s : string) (i : nat) {struct i} : Outcome string :=
  match i, s with
  | O, _ => Ret s
  | S _, EmptyString => Panic IndexOutOfRange
  | S j, String _ rest => string_from rest j
  end.

(** [l[i]] on a Go slice. *)
Definition slice_index {A : Type} (l : list A) (i : nat) : Outcome A :=
  match nth_error l i with
  | Some a => Ret a
  | None => Panic IndexOutOfRange
  end.

(** [string(b)] for a byte [b]: Go converts the byte to the rune of the same
    number and encodes it in UTF-8, one byte below 0x80 and two bytes
    (0xC2 or 0xC3, then a continuation byte) from 0x80 on. *)
Definition string_of_byte (b : ascii) : string :=
  let n := N_of_ascii b in
  if (n <? 128)%N then String b EmptyString
  else String (ascii_of_N (192 + n / 64))
         (String (ascii_of_N (128 + n mod 64)) EmptyString).

Definition is_upper (b : ascii) : bool :=
  let n := N_of_ascii b in (65 <=? n)%N && (n <=? 90)%N.

Definition ascii_lower (b : ascii) : ascii :=
  if is_upper b then ascii_of_N (N_of_ascii b + 32) else b.

(** Second byte of the two-byte encoding of an upper-case Latin-1 letter
    (U+00C0 to U+00DE, except the multiplication sign U+00D7). *)
Definition latin1_upper_tail (b : ascii) : bool :=
  let n := N_of_ascii b in
  (128 <=? n)%N && (n <=? 158)%N && negb (n =? 151)%N.

(** [strings.ToLower].  ASCII letters are lowered byte by byte, as Go's
    fast path does; the two-byte encodings of the upper-case Latin-1 letters
    are lowered as [unicode.ToLower] does; every other byte is copied.  The
    model is exact on text whose runes are below U+0100. *)
Fixpoint ToLower (s : string) : string :=
  match s with
  | EmptyString => EmptyString
  | String b rest =>
      if (N_of_ascii b =? 195)%N then
        match rest with
        | String c rest' =>
            if latin1_upper_tail c
            then String b (String (ascii_of_N (N_of_ascii c + 32)) (ToLower rest'))
            else String b (ToLower rest)
        | EmptyString => String b EmptyString
        end
      else String (ascii_lower b) (ToLower rest)
  end.

(** The ASCII white space of [unicode.IsSpace]: tab, line feed, vertical
    tab, form feed, carriage return and space. *)
Definition isSpace (b : ascii) : bool :=
  let n := N_of_ascii b in
  ((9 <=? n)%N && (n <=? 13)%N) || (n =? 32)%N.

Definition flush (cur : string) (words : list string) : list string :=
  match cur with
  | EmptyString => words
  | _ => cur :: words
  end.

Fixpoint Fields_from (cur : string) (s : string) : list string :=
  match s with
  | EmptyString => flush cur []
  | String b rest =>
      if isSpace b then flush cur (Fields_from EmptyString rest)
      else Fields_from (cur ++ String b EmptyString) rest
  end.

(** [strings.Fields]: the maximal runs of bytes that are not white space,
    in order.  Exact on ASCII text. *)
Definition Fields (s : string) : list string := Fields_from EmptyString s.

(** [strings.HasPrefix(s, p)]. *)
Definition HasPrefix (s p : string) : bool := prefix p s.

(** [strconv.Itoa] and the [%d] verb. *)
Definition Itoa (n : Z) : string := NilZero.string_of_int (Z.to_int n).

(** ** Errors *)

(** The error values of the file: those built by [fmt.Errorf], and the
    wrapper [FatalError] around another error. *)
Inductive error : Type :=
| Errorf (msg : string)
| FatalError (e : error).

(** [err.Error()]; the embedded error of a [FatalError] supplies its text. *)
Fixpoint Error (e : error) : string :=
  match e with
  | Errorf msg => msg
  | FatalError e' => Error e'
  end.

(** The type test [_, ok := err.(FatalError)] that callers use. *)
Definition isFatal (e : error) : bool :=
  match e with
  | FatalError _ => true
  | Errorf _ => false
  end.

(** The [%v] verb applied to an [error]; a nil error prints as [<nil>]. *)
Definition fmt_v (err : option error) : string :=
  match err with
  | Some e => Error e
  | None => "<nil>"
  end.

(** A Go result pair [(T, error)] of which exactly one side is set. *)
Inductive res (A : Type) : Type :=
| Ok (a : A)
| Err (e : error).

Arguments Ok {A} a.
Arguments Err {A} e.

(** ** Data types of the file *)

(** [ImageID] is a string type declared in another file of the package;
    the [%s] verb prints it as its text. *)
Definition ImageID : Type := string.

(** The field [l], the pointer back to the one provider, is left implicit. *)
Record linodeServer : Type := mkServer {
  srv_ID : Z;
  srv_Label : string;
  srv_Status : Z;
  srv_Addr : string;
  srv_Img : ImageID;
  srv_Config : Z;
  srv_Root : Z;
  srv_Swap : Z
}.

Definition linodeBeingCreated : Z := -1.
Definition linodeBrandNew : Z := 0.
Definition linodeRunning : Z := 1.
Definition linodePoweredOff : Z := 2.

Record linodeError : Type := mkError {
  err_Code : Z;
  err_Message : string
}.

Record linodeResult : Type := mkResult {
  Errors : list linodeError
}.

(** [linodeResult.err]: the [for range] body returns at the first record. *)
Definition linodeResult_err (r : linodeResult) : Outcome (option error) :=
  match Errors r with
  | e :: _ =>
      try b <- string_index (err_Message e) 0;
      try rest <- string_from (err_Message e) 1;
      Ret (Some (Errorf (ToLower (string_of_byte b) ++ rest)))
  | [] => Ret None
  end.

Record linodeJobInfo : Type := mkJobInfo {
  ji_JobID : Z;
  ji_LinodeID : Z;
  ji_Action : string;
  ji_Label : string;
  ji_HostStart : string;
  ji_HostFinish : string;
  ji_HostSuccess : Z;
  ji_HostMessage : string
}.

Definition nonEmpty (s : string) : bool :=
  match s with
  | EmptyString => false
  | String _ _ => true
  end.

(** [linodeJobInfo.err]. *)
Definition linodeJobInfo_err (job : linodeJobInfo) : Outcome (option error) :=
  if (ji_HostSuccess job =? 1) || negb (nonEmpty (ji_HostFinish job)) then Ret None
  else
    let msg := ji_HostMessage job in
    if nonEmpty msg then
      try b <- string_index msg 0;
      try rest <- string_from msg 1;
      Ret (Some (Errorf (ToLower (string_of_byte b) ++ rest)))
    else Ret (Some (Errorf ("job " ++ Itoa (ji_JobID job) ++ " failed silently"))).

(** ** Requests and replies *)

(** [linodeParams] is [map[string]interface{}]; the values the file stores
    in it are integers, strings, booleans and, for a batch, a list of
    parameter maps.  The entries are kept in the order of the map literal. *)
Inductive Value : Type :=
| VInt (n : Z)
| VString (s : string)
| VBool (b : bool)
| VBatch (reqs : list (list (string * Value))).

Definition linodeParams : Type := list (string * Value).

Record linodeListResult : Type := mkListResult {
  lr_Data : list linodeServer
}.

Record linodeJob : Type := mkJob {
  job_JobID : Z
}.

(** [Data] is a pointer: [None] is the nil left by a reply without DATA. *)
Record linodeJobResult : Type := mkJobResult {
  jr_result : linodeResult;
  jr_Data : option linodeJob
}.

Record linodeDiskJob : Type := mkDiskJob {
  dj_DiskID : Z;
  dj_JobID : Z
}.

Record linodeDiskJobResult : Type := mkDiskJobResult {
  djr_result : linodeResult;
  djr_Data : option linodeDiskJob
}.

Record linodeConfigResult : Type := mkConfigResult {
  cr_result : linodeResult;
  cr_ConfigID : Z
}.

Record linodeJobInfoResult : Type := mkJobInfoResult {
  jir_result : linodeResult;
  jir_Data : list linodeJobInfo
}.

Record linodeIP : Type := mkIP {
  ip_ID : Z;
  ip_LinodeID : Z;
  ip_IsPublic : Z;
  ip_IPAddress : string;
  ip_RDNSName : string
}.

Record linodeIPResult : Type := mkIPResult {
  ipr_result : linodeResult;
  ipr_Data : list linodeIP
}.

Record linodeDistro : Type := mkDistro {
  d_Name : string;
  d_KernelID : Z;
  d_ID : Z;
  d_Label : string;
  d_MinImageSize : Z;
  d_VOPSKernel : Z;
  d_Is64Bit : Z;
  d_Create : string
}.

Record distrosResult : Type := mkDistrosResult {
  dr_result : linodeResult;
  dr_Data : list linodeDistro
}.

Record linodeKernel : Type := mkKernel {
  k_ID : Z;
  k_IsPVOPS : Z;
  k_IsXEN : Z;
  k_IsKVM : Z;
  k_Label : string
}.

Record kernelsResult : Type := mkKernelsResult {
  kr_result : linodeResult;
  kr_Data : list linodeKernel
}.

(** What [json.Unmarshal] left in the result value that the caller passed
    to [do], one constructor per result type of the file.  The elements of a
    decoded array are taken to be present (no JSON null among them). *)
Inductive Body : Type :=
| BodyNone
| BodyList (r : linodeListResult)
| BodyJob (r : linodeJobResult)
| BodyDiskJobs (rs : list linodeDiskJobResult)
| BodyResults (rs : list linodeResult)
| BodyResult (r : linodeResult)
| BodyConfig (r : linodeConfigResult)
| BodyJobInfo (r : linodeJobInfoResult)
| BodyIP (r : linodeIPResult)
| BodyDistros (r : distrosResult)
| BodyKernels (r : kernelsResult).

(** What one HTTP exchange of [do] comes to: the POST fails, reading the
    body fails, or the body is decoded, with or without a decoding error. *)
Inductive Reply : Type :=
| PostFailed (e : string)
| ReadFailed (e : string)
| Decoded (err : option string) (body : Body).

(** The fields tagged [json:"-"] keep their zero value when decoded. *)
Definition json_linodeServer (s : linodeServer) : linodeServer :=
  mkServer (srv_ID s) (srv_Label s) (srv_Status s) EmptyString EmptyString 0 0 0.

Definition json_linodeDistro (d : linodeDistro) : linodeDistro :=
  mkDistro EmptyString 0 (d_ID d) (d_Label d) (d_MinImageSize d)
    (d_VOPSKernel d) (d_Is64Bit d) (d_Create d).

Definition zeroResult : linodeResult := mkResult [].

(** The value of each result variable after [do]: what was decoded when the
    reply has the shape of the variable, its zero value otherwise. *)
Definition asList (b : Body) : linodeListResult :=
  match b with
  | BodyList r => mkListResult (map json_linodeServer (lr_Data r))
  | _ => mkListResult []
  end.

Definition asJob (b : Body) : linodeJobResult :=
  match b with BodyJob r => r | _ => mkJobResult zeroResult None end.

Definition asDiskJobs (b : Body) : list linodeDiskJobResult :=
  match b with BodyDiskJobs rs => rs | _ => [] end.

Definition asResults (b : Body) : list linodeResult :=
  match b with BodyResults rs => rs | _ => [] end.

Definition asResult (b : Body) : linodeResult :=
  match b with BodyResult r => r | _ => zeroResult end.

Definition asConfig (b : Body) : linodeConfigResult :=
  match b with BodyConfig r => r | _ => mkConfigResult zeroResult 0 end.

Definition asJobInfo (b : Body) : linodeJobInfoResult :=
  match b with BodyJobInfo r => r | _ => mkJobInfoResult zeroResult [] end.

Definition asIP (b : Body) : linodeIPResult :=
  match b with BodyIP r => r | _ => mkIPResult zeroResult [] end.

Definition asDistros (b : Body) : distrosResult :=
  match b with
  | BodyDistros r => mkDistrosResult (dr_result r) (map json_linodeDistro (dr_Data r))
  | _ => mkDistrosResult zeroResult []
  end.

Definition asKernels (b : Body) : kernelsResult :=
  match b with BodyKernels r => r | _ => mkKernelsResult zeroResult [] end.

(** ** The provider state and the monad *)

(** The mutable fields of the [linode] struct.  The mutex only serialises
    callers; one caller at a time is modelled. *)
Record linode : Type := mkLinode {
  distrosDone : bool;
  distrosCache : list linodeDistro;
  kernelsCache : list linodeKernel
}.

(** The struct together with the requests issued so far, newest first. *)
Record State : Type := mkState {
  self : linode;
  sent : list linodeParams
}.

Definition M (A : Type) : Type := State -> Outcome A * State.

Definition ret {A : Type} (a : A) : M A := fun st => (Ret a, st).

Definition bind {A B : Type} (m : M A) (k : A -> M B) : M B :=
  fun st =>
    match m st with
    | (Ret a, st') => k a st'
    | (Panic p, st') => (Panic p, st')
    end.

Definition lift {A : Type} (o : Outcome A) : M A := fun st => (o, st).

Definition get_self : M linode := fun st => (Ret (self st), st).

Definition put_self (l : linode) : M unit :=
  fun st => (Ret tt, mkState l (sent st)).

Notation "x <- m ;; k" := (bind m (fun x => k))
  (at level 61, m at next level, right associativity).
Notation "' pat <- m ;; k" := (bind m (fun x => match x with pat => k end))
  (at level 61, pat pattern, m at next level, right associativity).
Notation "m ;; k" := (bind m (fun _ => k))
  (at level 61, right associativity).

(** [firstErr]. *)
Fixpoint firstErr (errs : list (option error)) : option error :=
  match errs with
  | [] => None
  | Some err :: _ => Some err
  | None :: rest => firstErr rest
  end.

(** ** The catalogue: pure parts of [distro] and [cacheDistros] *)

(** The [for range] of [distro] over the cache; [best] is the local
    variable of that name. *)
Fixpoint distro_range (system : string) (cache : list linodeDistro)
    (best : option linodeDistro) : res linodeDistro :=
  match cache with
  | [] =>
      match best with
      | None => Err (Errorf "cannot find system %!s(MISSING) in Linode")
      | Some d => Ok d
      end
  | d :: rest =>
      if negb (d_Name d =? system)%string then distro_range system rest best
      else if d_Is64Bit d =? 1 then Ok d
      else distro_range system rest (Some d)
  end.

(** The [for range] of [cacheDistros] over the kernels; the pair is
    [(latest32, latest64)]. *)
Fixpoint kernels_range (kernels : list linodeKernel) (latest : Z * Z) : Z * Z :=
  match kernels with
  | [] => latest
  | kernel :: rest =>
      let '(latest32, latest64) := latest in
      let latest64 :=
        if HasPrefix (k_Label kernel) "Latest 64 bit" then k_ID kernel else latest64 in
      let latest32 :=
        if HasPrefix (k_Label kernel) "Latest 32 bit" then k_ID kernel else latest32 in
      kernels_range rest (latest32, latest64)
  end.

(** The name that the last loop of [cacheDistros] computes from a label. *)
Definition distroName (Label : string) : Outcome string :=
  let label := Fields (ToLower Label) in
  if (2 <? List.length label)%nat
     && match nth_error label 1 with
        | Some w => (w =? "linux")%string
        | None => false
        end
  then
    try w0 <- slice_index label 0;
    try w2 <- slice_index label 2;
    Ret (w0 ++ "-" ++ w2)
  else
    try w0 <- slice_index label 0;
    try w1 <- slice_index label 1;
    Ret (w0 ++ "-" ++ w1).

(** The last loop of [cacheDistros]: each entry gets its kernel and its
    name.  The entries are updated in place in the source; the updated list
    is returned here, and a panic leaves the cache as it was fetched. *)
Fixpoint distros_range (latest32 latest64 : Z) (distros : list linodeDistro)
    : Outcome (list linodeDistro) :=
  match distros with
  | [] => Ret []
  | distro :: rest =>
      let kernelID := if d_Is64Bit distro =? 1 then latest64 else latest32 in
      try name <- distroName (d_Label distro);
      try rest' <- distros_range latest32 latest64 rest;
      Ret (mkDistro name kernelID (d_ID distro) (d_Label distro)
             (d_MinImageSize distro) (d_VOPSKernel distro) (d_Is64Bit distro)
             (d_Create distro) :: rest')
  end.

(** ** The exits of the loop of [createDisk] *)

Inductive diskLoopExit : Type :=
| Returned (root swap : option linodeDiskJob)
| Left (root : option linodeDiskJob) (err : option error).

(** The [for i, result := range results] of [createDisk]: it returns from
    the function at the second clean result, and is left by [break] at the
    first result with an error or by running out of results. *)
Fixpoint createDisk_range (i : nat) (results : list linodeDiskJobResult)
    (root : option linodeDiskJob) (err : option error) : Outcome diskLoopExit :=
  match results with
  | [] => Ret (Left root err)
  | result :: rest =>
      try e <- linodeResult_err (djr_result result);
      match e with
      | Some _ => Ret (Left root e)
      | None =>
          match i with
          | O => createDisk_range 1 rest (djr_Data result) err
          | S _ => Ret (Returned root (djr_Data result))
          end
      end
  end.

(** The first public address in the reply of [ip]. *)
Fixpoint ip_range (ips : list linodeIP) : option linodeIP :=
  match ips with
  | [] => None
  | ip :: rest => if ip_IsPublic ip =? 1 then Some ip else ip_range rest
  end.

(** ** Reuse data: the YAML view of a server *)

Inductive yamlScalar : Type :=
| YInt (n : Z)
| YStr (s : string).

(** A flat YAML mapping, in document order. *)
Definition yamlMap : Type := list (string * yamlScalar).

Fixpoint yaml_lookup (key : string) (doc : yamlMap) : option yamlScalar :=
  match doc with
  | [] => None
  | (k, v) :: rest => if (k =? key)%string then Some v else yaml_lookup key rest
  end.

(** The mapping that [yaml.Marshal] builds from a [linodeServer]: one entry
    per exported field, under the [yaml] tag or the lower-cased field name;
    [Status] is tagged [yaml:"-"] and the field [l] is unexported. *)
Definition yaml_of_server (s : linodeServer) : yamlMap :=
  [ ("id", YInt (srv_ID s));
    ("label", YStr (srv_Label s));
    ("address", YStr (srv_Addr s));
    ("image", YStr (srv_Img s));
    ("config", YInt (srv_Config s));
    ("root", YInt (srv_Root s));
    ("swap", YInt (srv_Swap s)) ].

(** Decoding a scalar into an [int] field: a string scalar is a type error. *)
Definition yaml_int (old : Z) (v : option yamlScalar) : option Z :=
  match v with
  | None => Some old
  | Some (YInt n) => Some n
  | Some (YStr _) => None
  end.

(** Decoding a scalar into a [string] field: an integer scalar is taken by
    its text. *)
Definition yaml_string (old : string) (v : option yamlScalar) : option string :=
  match v with
  | None => Some old
  | Some (YStr s) => Some s
  | Some (YInt n) => Some (Itoa n)
  end.

(** What [yaml.Unmarshal] does to a [linodeServer] given a mapping: the
    fields present in the mapping are set, the others are kept, and
    [Status] is never looked at. *)
Definition yaml_to_server (doc : yamlMap) (s : linodeServer) : option linodeServer :=
  match yaml_int (srv_ID s) (yaml_lookup "id" doc),
        yaml_string (srv_Label s) (yaml_lookup "label" doc),
        yaml_string (srv_Addr s) (yaml_lookup "address" doc),
        yaml_string (srv_Img s) (yaml_lookup "image" doc),
        yaml_int (srv_Config s) (yaml_lookup "config" doc),
        yaml_int (srv_Root s) (yaml_lookup "root" doc),
        yaml_int (srv_Swap s) (yaml_lookup "swap" doc) with
  | Some id, Some label, Some addr, Some img, Some config, Some root, Some swap =>
      Some (mkServer id label (srv_Status s) addr img config root swap)
  | _, _, _, _, _, _, _ => None
  end.

(** The zero value [&linodeServer{}]. *)
Definition zeroServer : linodeServer :=
  mkServer 0 EmptyString 0 EmptyString EmptyString 0 0 0.

(** The error that [do] returns and the content of its result variable,
    for each kind of reply.  Nothing is decoded when the exchange fails
    before [json.Unmarshal]. *)
Definition do_result (r : Reply) : option error * Body :=
  match r with
  | PostFailed e => (Some (Errorf ("cannot perform Linode request: " ++ e)), BodyNone)
  | ReadFailed e => (Some (Errorf ("cannot read Linode response: " ++ e)), BodyNone)
  | Decoded (Some e) body =>
      (Some (Errorf ("cannot decode Linode response: " ++ e)), body)
  | Decoded None body => (None, body)
  end.

(** [params["api_action"]]. *)
Fixpoint api_action (params : linodeParams) : option Value :=
  match params with
  | [] => None
  | (k, v) :: rest => if (k =? "api_action")%string then Some v else api_action rest
  end.

Definition isShutdown (params : linodeParams) : bool :=
  match api_action params with
  | Some (VString a) => (a =? "linode.shutdown")%string
  | _ => false
  end.

(** ** Scripted providers and sample data

    A script is the list of replies that the provider gives, the first reply
    to the first request; once the script is used up the connection fails. *)

Definition scripted (script : list Reply) (hist : list linodeParams) : Reply :=
  nth (pred (List.length hist)) script (PostFailed "connection refused").

Definition noErrors : linodeResult := mkResult [].

Definition oneError (code : Z) (message : string) : linodeResult :=
  mkResult [mkError code message].

Definition emptyLinode : linode := mkLinode false [] [].

Definition start : State := mkState emptyLinode [].

Definition sampleSystemID (image : ImageID) : string := image.

Definition sampleLabel (image : ImageID) (suffix : string) : string :=
  match suffix with
  | EmptyString => image
  | _ => image ++ "-" ++ suffix
  end.

Definition sampleServer : linodeServer :=
  mkServer 101 "spread-1" linodePoweredOff "10.0.0.7" "ubuntu-16.04" 31 11 12.

Definition ubuntu64 : linodeDistro :=
  mkDistro "ubuntu-16.04" 7 146 "Ubuntu 16.04 LTS" 1024 1 1 "2016-04-22".

Definition ubuntu32 : linodeDistro :=
  mkDistro "ubuntu-16.04" 3 147 "Ubuntu 16.04 LTS" 1024 1 0 "2016-04-22".

Definition sampleKernels : list linodeKernel :=
  [ mkKernel 7 1 0 1 "Latest 64 bit (4.5.0-x86_64-linode65)";
    mkKernel 3 1 0 1 "Latest 32 bit (4.5.0-x86-linode88)" ].

(** A state whose catalogue is already populated. *)
Definition populated : State :=
  mkState (mkLinode true [ubuntu32; ubuntu64] sampleKernels) [].

(** The catalogue lists as the provider sends them. *)
Definition catalogScript : list Reply :=
  [ Decoded None (BodyDistros (mkDistrosResult noErrors [ubuntu32; ubuntu64]));
    Decoded None (BodyKernels (mkKernelsResult noErrors sampleKernels)) ].

(** A line-oriented codec for flat mappings, one [key: value] per line; a
    value that reads as a decimal number is an integer.  It stands for the
    YAML library where a concrete codec is needed. *)
Definition newline : ascii := ascii_of_nat 10.

Definition flat_scalar (v : yamlScalar) : string :=
  match v with
  | YInt n => Itoa n
  | YStr s => s
  end.

Fixpoint flat_emit (doc : yamlMap) : string :=
  match doc with
  | [] => EmptyString
  | (k, v) :: rest =>
      k ++ ": " ++ flat_scalar v ++ String newline EmptyString ++ flat_emit rest
  end.

Fixpoint flat_lines (cur : string) (s : string) : list string :=
  match s with
  | EmptyString => flush cur []
  | String b rest =>
      if Ascii.eqb b newline then cur :: flat_lines EmptyString rest
      else flat_lines (cur ++ String b EmptyString) rest
  end.

Definition flat_entry (line : string) : option (string * yamlScalar) :=
  match index 0 ": " line with
  | None => None
  | Some i =>
      let key := substring 0 i line in
      let value := substring (i + 2) (String.length line - (i + 2)) line in
      match NilZero.int_of_string value with
      | Some n => Some (key, YInt (Z.of_int n))
      | None => Some (key, YStr value)
      end
  end.

Fixpoint flat_entries (lines : list string) : yamlMap + string :=
  match lines with
  | [] => inl []
  | line :: rest =>
      match flat_entry line, flat_entries rest with
      | Some e, inl doc => inl (e :: doc)
      | None, _ => inr ("yaml: could not find expected ':' in " ++ line)
      | _, inr msg => inr msg
      end
  end.

Definition flat_parse (data : string) : yamlMap + string :=
  flat_entries (flat_lines EmptyString data).

Definition flat_TypeError (doc : yamlMap) : string :=
  "yaml: unmarshal errors: cannot unmarshal !!str into int".

Definition runningServer : linodeServer :=
  mkServer 100 "spread-0" linodeRunning EmptyString EmptyString 0 0 0.

Definition idleServer : linodeServer :=
  mkServer 101 "spread-1" linodePoweredOff EmptyString EmptyString 0 0 0.

Definition publicIP : linodeIP := mkIP 5 101 1 "203.0.113.9" "li101.members.linode.com".
Definition privateIP : linodeIP := mkIP 4 101 0 "192.168.130.7" EmptyString.

Definition finishedJob : linodeJobInfo :=
  mkJobInfo 77 101 "linode.boot" "System Boot" "2016-05-01 10:00:00"
    "2016-05-01 10:00:09" 1 EmptyString.

Definition pendingJob : linodeJobInfo :=
  mkJobInfo 77 101 "linode.boot" "System Boot" EmptyString EmptyString 0 EmptyString.

(** A complete allocation: listing, addresses, the two catalogue lists,
    the disk batch, the configuration, the boot job and two polls. *)
Definition allocationScript : list Reply :=
  [ Decoded None (BodyList (mkListResult [runningServer; idleServer]));
    Decoded None (BodyIP (mkIPResult noErrors [privateIP; publicIP])) ]
  ++ catalogScript
  ++ [ Decoded None
         (BodyDiskJobs
            [ mkDiskJobResult noErrors (Some (mkDiskJob 11 70));
              mkDiskJobResult noErrors (Some (mkDiskJob 12 71)) ]);
       Decoded None (BodyConfig (mkConfigResult noErrors 31));
       Decoded None (BodyJob (mkJobResult noErrors (Some (mkJob 77))));
       Decoded None (BodyJobInfo (mkJobInfoResult noErrors [pendingJob]));
       Decoded None (BodyJobInfo (mkJobInfoResult noErrors [finishedJob])) ].

(** An error record as the provider sends it, and one without message. *)
Definition busy : linodeResult := oneError 5 "Linode busy".
Definition noMessage : linodeResult := oneError 5 EmptyString.





(** ** Further replies *)

Definition rootResult : linodeDiskJobResult :=
  mkDiskJobResult noErrors (Some (mkDiskJob 11 70)).

Definition swapResult : linodeDiskJobResult :=
  mkDiskJobResult noErrors (Some (mkDiskJob 12 71)).

(** A batch reply that [do] could not decode to its end: two clean
    sub-results were decoded, and a third one with an error record. *)
Definition twoDisks : list Reply :=
  [ Decoded (Some "unexpected end of JSON input")
      (BodyDiskJobs [rootResult; swapResult; mkDiskJobResult busy None]) ].

(** A batch reply with the root sub-result alone, and the reply to the
    removal of the root disk. *)
Definition loneRoot : list Reply :=
  [ Decoded None (BodyDiskJobs [rootResult]);
    Decoded None (BodyResults [noErrors]) ].

(** A batch whose root sub-result fails while its swap sub-result passes. *)
Definition rootRefused : list Reply :=
  [ Decoded None (BodyDiskJobs [mkDiskJobResult busy None; swapResult]) ].

Definition addresses : Reply :=
  Decoded None (BodyIP (mkIPResult noErrors [privateIP; publicIP])).

Definition disksCreated : Reply :=
  Decoded None (BodyDiskJobs [rootResult; swapResult]).

Definition configCreated : Reply :=
  Decoded None (BodyConfig (mkConfigResult noErrors 31)).

Definition bootStarted : Reply :=
  Decoded None (BodyJob (mkJobResult noErrors (Some (mkJob 77)))).

Definition stillPending : Reply :=
  Decoded None (BodyJobInfo (mkJobInfoResult noErrors [pendingJob])).

Definition configRemoved : Reply := Decoded None (BodyResult noErrors).

Definition disksRemoved : Reply := Decoded None (BodyResults [noErrors; noErrors]).

(** Set-ups on a populated catalogue that stop at one step each. *)
Definition configRefused : list Reply :=
  [ addresses; disksCreated; Decoded None (BodyConfig (mkConfigResult busy 0));
    disksRemoved ].

Definition bootRefused : list Reply :=
  [ addresses; disksCreated; configCreated; Decoded None (BodyJob (mkJobResult busy None));
    configRemoved; disksRemoved ].

Definition bootTimesOut : list Reply :=
  [ addresses; disksCreated; configCreated; bootStarted; stillPending; stillPending;
    configRemoved; disksRemoved; configRemoved; disksRemoved ].

Definition rootDataMissing : list Reply :=
  [ addresses; Decoded None (BodyDiskJobs [mkDiskJobResult noErrors None; swapResult]) ].

Definition bootDataMissing : list Reply :=
  [ addresses; disksCreated; configCreated; Decoded None (BodyJob (mkJobResult noErrors None)) ].

(** The server of the set-ups above once its configuration exists. *)
Definition configuredServer : linodeServer :=
  mkServer 101 "spread-1" linodePoweredOff "203.0.113.9" "ubuntu-16.04" 31 11 12.

(** A kernel list whose latest 64-bit kernel has the ID -1. *)
Definition minusOneKernels : list linodeKernel :=
  [ mkKernel (-1) 1 0 1 "Latest 64 bit (4.5.0-x86_64-linode65)";
    mkKernel 3 1 0 1 "Latest 32 bit (4.5.0-x86-linode88)" ].

Definition minusOneScript : list Reply :=
  [ Decoded None (BodyDistros (mkDistrosResult noErrors [ubuntu32; ubuntu64]));
    Decoded None (BodyKernels (mkKernelsResult noErrors minusOneKernels)) ].

(** A removal batch whose second sub-result fails, and one with no
    sub-result. *)
Definition secondRemovalFails : list Reply :=
  [ Decoded None (BodyResults [noErrors; busy; oneError 4 "Not found"]) ].

Definition noSubResults : list Reply := [ Decoded None (BodyResults []) ].

Definition noJobs : list Reply :=
  [ Decoded None (BodyJobInfo (mkJobInfoResult noErrors [])) ].

Definition onlyPrivate : list Reply :=
  [ Decoded None (BodyIP (mkIPResult noErrors [privateIP])) ].
(** ** The methods *)

Section Linode.

(** [l.backend.Name], and the methods [SystemID] and [Label] of [ImageID]:
    their declarations are in other files of the package. *)
Variable backend_Name : string.
Variable SystemID : ImageID -> string.
Variable ImageLabel : ImageID -> string -> string.

(** The provider: the reply to the newest request, given all the requests
    sent so far (newest first). *)
Variable provider : list linodeParams -> Reply.

(** The number of ticks of the 5 second ticker that the [select] of
    [waitJob] receives before it receives the one minute deadline. *)
Variable ticks : nat.

(** The emitter and the parser of the YAML library, and the text of its
    type error. *)
Variable yaml_emit : yamlMap -> string.
Variable yaml_parse : string -> yamlMap + string.
Variable yaml_TypeError : yamlMap -> string.

(** [linodeServer.String]. *)
Definition server_String (s : linodeServer) : string :=
  backend_Name ++ ":" ++ SystemID (srv_Img s) ++ " (" ++ srv_Label s ++ ")".

(** [linodeServer.ReuseData]; marshalling this struct cannot fail. *)
Definition ReuseData (s : linodeServer) : string :=
  yaml_emit (yaml_of_server s).

(** [linode.Reuse]. *)
Definition Reuse (data : string) (password : string) : res linodeServer :=
  match yaml_parse data with
  | inr e => Err (Errorf ("cannot unmarshal Linode reuse data: " ++ e))
  | inl doc =>
      match yaml_to_server doc zeroServer with
      | None =>
          Err (Errorf ("cannot unmarshal Linode reuse data: " ++ yaml_TypeError doc))
      | Some server => Ok server
      end
  end.

(** [linode.do]: the request is sent, and the reply decides the error and
    what the result variable holds.  The log keeps the parameters of the
    caller; the account key that [do] adds to each request is not recorded. *)
Definition linode_do (params : linodeParams) : M (option error * Body) :=
  fun st =>
    (Ret (do_result (provider (params :: sent st))),
     mkState (self st) (params :: sent st)).

(** The idiom [if err == nil { err = result.err() }]. *)
Definition orResultErr (err : option error) (r : linodeResult) : M (option error) :=
  match err with
  | None => lift (linodeResult_err r)
  | Some _ => ret err
  end.

Definition list_params : linodeParams :=
  [("api_action", VString "linode.list")].

(** [linode.list]. *)
Definition linode_list : M (res (list linodeServer)) :=
  '(err, body) <- linode_do list_params ;;
  match err with
  | Some e => ret (Err e)
  | None => ret (Ok (lr_Data (asList body)))
  end.

(** [linode.serverJob]. *)
Definition serverJob (server : linodeServer) (verb : string) (params : linodeParams)
    : M (res (option linodeJob)) :=
  '(err, body) <- linode_do params ;;
  err <- orResultErr err (jr_result (asJob body)) ;;
  match err with
  | Some e =>
      ret (Err (Errorf ("cannot " ++ verb ++ " " ++ server_String server ++ ": " ++ Error e)))
  | None => ret (Ok (jr_Data (asJob body)))
  end.

Definition reboot_params (server : linodeServer) (configID : Z) : linodeParams :=
  [("api_action", VString "linode.reboot");
   ("LinodeID", VInt (srv_ID server));
   ("ConfigID", VInt configID)].

Definition shutdown_params (server : linodeServer) : linodeParams :=
  [("api_action", VString "linode.shutdown");
   ("LinodeID", VInt (srv_ID server))].

(** [linode.boot]. *)
Definition boot (server : linodeServer) (configID : Z) : M (res (option linodeJob)) :=
  serverJob server "reboot" (reboot_params server configID).

(** [linode.reboot]. *)
Definition reboot (server : linodeServer) (configID : Z) : M (res (option linodeJob)) :=
  serverJob server "reboot" (reboot_params server configID).

(** [linode.shutdown]. *)
Definition shutdown (server : linodeServer) : M (res (option linodeJob)) :=
  serverJob server "shutdown" (shutdown_params server).

(** The second loop of [removeDisks]. *)
Fixpoint removeDisks_range (server : linodeServer) (results : list linodeResult)
    : Outcome (option error) :=
  match results with
  | [] => Ret None
  | result :: rest =>
      try err <- linodeResult_err result;
      match err with
      | Some e =>
          Ret (Some (Errorf ("cannot remove disk on " ++ server_String server ++ ": " ++ Error e)))
      | None => removeDisks_range server rest
      end
  end.

Definition diskDelete (server : linodeServer) (diskID : Z) : linodeParams :=
  [("api_action", VString "linode.disk.delete");
   ("LinodeID", VInt (srv_ID server));
   ("DiskID", VInt diskID)].

Definition removeDisks_params (server : linodeServer) (diskIDs : list Z) : linodeParams :=
  [("api_action", VString "batch");
   ("api_requestArray", VBatch (map (diskDelete server) diskIDs))].

(** [linode.removeDisks]. *)
Definition removeDisks (server : linodeServer) (diskIDs : list Z) : M (option error) :=
  '(err, body) <- linode_do (removeDisks_params server diskIDs) ;;
  match err with
  | Some e =>
      ret (Some (Errorf ("cannot remove disk on " ++ server_String server ++ ": " ++ Error e)))
  | None => lift (removeDisks_range server (asResults body))
  end.

Definition removeConfig_params (server : linodeServer) (configID : Z) : linodeParams :=
  [("api_action", VString "linode.config.delete");
   ("LinodeID", VInt (srv_ID server));
   ("ConfigID", VInt configID)].

(** [linode.removeConfig]. *)
Definition removeConfig (server : linodeServer) (configID : Z) : M (option error) :=
  '(err, body) <- linode_do (removeConfig_params server configID) ;;
  err <- orResultErr err (asResult body) ;;
  match err with
  | Some e =>
      ret (Some (Errorf ("cannot remove config from " ++ server_String server ++ ": " ++ Error e)))
  | None => ret None
  end.

(** [linodeServer.Discard]. *)
Definition Discard (s : linodeServer) : M (option error) :=
  r1 <- shutdown s ;;
  let err1 := match r1 with Err e => Some e | Ok _ => None end in
  err2 <- removeConfig s (srv_Config s) ;;
  err3 <- removeDisks s [srv_Root s; srv_Swap s] ;;
  ret (firstErr [err1; err2; err3]).

Definition distros_params : linodeParams :=
  [("api_action", VString "avail.distributions")].

Definition kernels_params : linodeParams :=
  [("api_action", VString "avail.kernels")].

(** The two retry loops of [cacheDistros]; [n] iterations remain and [err]
    is the variable of that name. *)
Fixpoint distros_retry (n : nat) (err : option error) : M (option error) :=
  match n with
  | O => ret err
  | S n' =>
      '(err, body) <- linode_do distros_params ;;
      err <- orResultErr err (dr_result (asDistros body)) ;;
      match err with
      | None =>
          l <- get_self ;;
          put_self (mkLinode (distrosDone l) (dr_Data (asDistros body)) (kernelsCache l)) ;;
          ret None
      | Some _ => distros_retry n' err
      end
  end.

Fixpoint kernels_retry (n : nat) (err : option error) : M (option error) :=
  match n with
  | O => ret err
  | S n' =>
      '(err, body) <- linode_do kernels_params ;;
      err <- orResultErr err (kr_result (asKernels body)) ;;
      match err with
      | None =>
          l <- get_self ;;
          put_self (mkLinode (distrosDone l) (distrosCache l) (kr_Data (asKernels body))) ;;
          ret None
      | Some _ => kernels_retry n' err
      end
  end.

(** [linode.cacheDistros]. *)
Definition cacheDistros : M (option error) :=
  err <- distros_retry 3 None ;;
  match err with
  | Some e => ret (Some (Errorf ("cannot list Linode distributions: " ++ Error e)))
  | None =>
      err <- kernels_retry 3 err ;;
      match err with
      | Some e => ret (Some (Errorf ("cannot list Linode kernels: " ++ Error e)))
      | None =>
          l <- get_self ;;
          let '(latest32, latest64) := kernels_range (kernelsCache l) (-1, -1) in
          if (latest32 =? -1) || (latest64 =? -1)
          then ret (Some (Errorf "cannot find latest Linode kernel"))
          else
            distros <- lift (distros_range latest32 latest64 (distrosCache l)) ;;
            put_self (mkLinode (distrosDone l) distros (kernelsCache l)) ;;
            ret None
      end
  end.

(** [linode.distro]. *)
Definition distro (image : ImageID) : M (res linodeDistro) :=
  l <- get_self ;;
  err <- (if distrosDone l then ret None else cacheDistros) ;;
  match err with
  | Some e => ret (Err e)
  | None =>
      l <- get_self ;;
      put_self (mkLinode true (distrosCache l) (kernelsCache l)) ;;
      ret (distro_range (SystemID image) (distrosCache l) None)
  end.

Definition createDisk_params (server : linodeServer) (distroID : Z)
    (image : ImageID) (password : string) : linodeParams :=
  [("api_action", VString "batch");
   ("api_requestArray", VBatch
      [ [("api_action", VString "linode.disk.createFromDistribution");
         ("LinodeID", VInt (srv_ID server));
         ("DistributionID", VInt distroID);
         ("Label", VString (ImageLabel image "root"));
         ("Size", VInt 4096);
         ("rootPass", VString password)];
        [("api_action", VString "linode.disk.create");
         ("LinodeID", VInt (srv_ID server));
         ("Label", VString (ImageLabel image "swap"));
         ("Size", VInt 256);
         ("Type", VString "swap")] ])].

(** The statements of [createDisk] after its loop. *)
Definition createDisk_fail (server : linodeServer) (image : ImageID)
    (results : list linodeDiskJobResult) (root : option linodeDiskJob)
    (err : option error) : M (res (option linodeDiskJob * option linodeDiskJob)) :=
  match root with
  | Some r => removeDisks server [dj_DiskID r] ;; ret tt
  | None => ret tt
  end ;;
  let err :=
    if (List.length results =? 0)%nat then Some (Errorf "empty batch result") else err in
  ret (Err (Errorf ("cannot create Linode disk with " ++ image ++ ": " ++ fmt_v err))).

(** [linode.createDisk]. *)
Definition createDisk (server : linodeServer) (image : ImageID) (password : string)
    : M (res (option linodeDiskJob * option linodeDiskJob)) :=
  d <- distro image ;;
  match d with
  | Err e => ret (Err e)
  | Ok distro =>
      '(err, body) <- linode_do (createDisk_params server (d_ID distro) image password) ;;
      let results := asDiskJobs body in
      exit <- lift (createDisk_range 0 results None err) ;;
      match exit with
      | Returned root swap => ret (Ok (root, swap))
      | Left root err => createDisk_fail server image results root err
      end
  end.

Definition createConfig_params (server : linodeServer) (kernelID : Z)
    (image : ImageID) (rootID swapID : Z) : linodeParams :=
  [("api_action", VString "linode.config.create");
   ("LinodeID", VInt (srv_ID server));
   ("KernelID", VInt kernelID);
   ("Label", VString (ImageLabel image EmptyString));
   ("DiskList", VString (Itoa rootID ++ "," ++ Itoa swapID));
   ("RootDeviceNum", VInt 1);
   ("RootDeviceR0", VBool true);
   ("helper_disableUpdateDB", VBool true);
   ("helper_distro", VBool true);
   ("helper_depmod", VBool true);
   ("helper_network", VBool false);
   ("devtmpfs_automount", VBool true)].

(** [linode.createConfig]. *)
Definition createConfig (server : linodeServer) (image : ImageID) (rootID swapID : Z)
    : M (res Z) :=
  d <- distro image ;;
  match d with
  | Err e => ret (Err e)
  | Ok distro =>
      '(err, body) <- linode_do
         (createConfig_params server (d_KernelID distro) image rootID swapID) ;;
      err <- orResultErr err (cr_result (asConfig body)) ;;
      match err with
      | Some e =>
          ret (Err (Errorf ("cannot create config on " ++ server_String server
                            ++ " with " ++ image ++ ": " ++ Error e)))
      | None => ret (Ok (cr_ConfigID (asConfig body)))
      end
  end.

Definition jobInfo_params (server : linodeServer) (jobID : Z) : linodeParams :=
  [("api_action", VString "linode.job.list");
   ("LinodeID", VInt (srv_ID server));
   ("JobID", VInt jobID)].

(** [linode.jobInfo]. *)
Definition jobInfo (server : linodeServer) (jobID : Z) : M (res linodeJobInfo) :=
  '(err, body) <- linode_do (jobInfo_params server jobID) ;;
  let result := asJobInfo body in
  err <- orResultErr err (jir_result result) ;;
  let err :=
    match err with
    | None =>
        if (List.length (jir_Data result) =? 0)%nat then Some (Errorf "empty result")
        else None
    | Some _ => err
    end in
  match err with
  | Some e =>
      ret (Err (Errorf ("cannot get job details for " ++ server_String server
                        ++ ": " ++ Error e)))
  | None =>
      job <- lift (slice_index (jir_Data result) 0) ;;
      ret (Ok job)
  end.

(** The [for { select { ... } }] of [waitJob]: [n] ticks are received before
    the deadline, and [infoErr] is the variable of that name.  The result is
    the pair that the function returns. *)
Fixpoint waitJob_select (server : linodeServer) (verb : string) (jobID : Z)
    (n : nat) (infoErr : option error) : M (option linodeJobInfo * option error) :=
  match n with
  | O =>
      match infoErr with
      | Some e => ret (None, Some e)
      | None =>
          removeConfig server (srv_Config server) ;;
          removeDisks server [srv_Root server; srv_Swap server] ;;
          ret (None, Some (Errorf ("timeout waiting for " ++ server_String server
                                   ++ " to " ++ verb)))
      end
  | S n' =>
      r <- jobInfo server jobID ;;
      match r with
      | Err err =>
          waitJob_select server verb jobID n'
            (Some (Errorf ("cannot " ++ verb ++ " " ++ server_String server
                           ++ ": " ++ Error err)))
      | Ok job =>
          if nonEmpty (ji_HostFinish job) then
            err <- lift (linodeJobInfo_err job) ;;
            match err with
            | Some e =>
                ret (Some job,
                     Some (Errorf ("cannot " ++ verb ++ " " ++ server_String server
                                   ++ ": " ++ Error e)))
            | None => ret (Some job, None)
            end
          else waitJob_select server verb jobID n' infoErr
      end
  end.

(** [linode.waitJob]. *)
Definition waitJob (server : linodeServer) (verb : string) (jobID : Z)
    : M (option linodeJobInfo * option error) :=
  waitJob_select server verb jobID ticks None.

Definition ip_params (server : linodeServer) : linodeParams :=
  [("api_action", VString "linode.ip.list");
   ("LinodeID", VInt (srv_ID server))].

(** [linode.ip]. *)
Definition ip (server : linodeServer) : M (res linodeIP) :=
  '(err, body) <- linode_do (ip_params server) ;;
  match err with
  | Some e => ret (Err e)
  | None =>
      err <- lift (linodeResult_err (ipr_result (asIP body))) ;;
      match err with
      | Some e =>
          ret (Err (Errorf ("cannot list IPs for " ++ server_String server
                            ++ ": " ++ Error e)))
      | None =>
          match ip_range (ipr_Data (asIP body)) with
          | Some a => ret (Ok a)
          | None =>
              ret (Err (Errorf ("cannot find public IP for " ++ server_String server)))
          end
      end
  end.

(** A nil pointer is dereferenced when a reply without error has no DATA. *)
Definition deref {A : Type} (p : option A) : M A :=
  match p with
  | Some a => ret a
  | None => lift (Panic NilDereference)
  end.

Definition setAddr (s : linodeServer) (addr : string) : linodeServer :=
  mkServer (srv_ID s) (srv_Label s) (srv_Status s) addr (srv_Img s)
    (srv_Config s) (srv_Root s) (srv_Swap s).

Definition setImg (s : linodeServer) (img : ImageID) : linodeServer :=
  mkServer (srv_ID s) (srv_Label s) (srv_Status s) (srv_Addr s) img
    (srv_Config s) (srv_Root s) (srv_Swap s).

Definition setConfig (s : linodeServer) (config : Z) : linodeServer :=
  mkServer (srv_ID s) (srv_Label s) (srv_Status s) (srv_Addr s) (srv_Img s)
    config (srv_Root s) (srv_Swap s).

Definition setRoot (s : linodeServer) (root : Z) : linodeServer :=
  mkServer (srv_ID s) (srv_Label s) (srv_Status s) (srv_Addr s) (srv_Img s)
    (srv_Config s) root (srv_Swap s).

Definition setSwap (s : linodeServer) (swap : Z) : linodeServer :=
  mkServer (srv_ID s) (srv_Label s) (srv_Status s) (srv_Addr s) (srv_Img s)
    (srv_Config s) (srv_Root s) swap.

(** [linode.setup].  The server is updated through its pointer in the
    source; the updated server is returned here next to the error. *)
Definition setup (server : linodeServer) (image : ImageID) (password : string)
    : M (linodeServer * option error) :=
  let server := setImg server image in
  a <- ip server ;;
  match a with
  | Err e => ret (server, Some e)
  | Ok a =>
      let server := setAddr server (ip_IPAddress a) in
      jobs <- createDisk server image password ;;
      match jobs with
      | Err e => ret (server, Some e)
      | Ok (rootJob, swapJob) =>
          rootJob <- deref rootJob ;;
          let server := setRoot server (dj_DiskID rootJob) in
          swapJob <- deref swapJob ;;
          let server := setSwap server (dj_DiskID swapJob) in
          c <- createConfig server image (srv_Root server) (srv_Swap server) ;;
          match c with
          | Err e =>
              removeDisks server [srv_Root server; srv_Swap server] ;;
              ret (server, Some e)
          | Ok configID =>
              let server := setConfig server configID in
              b <- boot server configID ;;
              err <- match b with
                     | Err e => ret (Some e)
                     | Ok bootJob =>
                         bootJob <- deref bootJob ;;
                         '(_, err) <- waitJob server "boot" (job_JobID bootJob) ;;
                         ret err
                     end ;;
              match err with
              | Some e =>
                  removeConfig server (srv_Config server) ;;
                  removeDisks server [srv_Root server; srv_Swap server] ;;
                  ret (server, Some e)
              | None => ret (server, None)
              end
          end
      end
  end.

(** The [for range] of [Allocate] over the servers. *)
Fixpoint Allocate_range (image : ImageID) (password : string)
    (servers : list linodeServer) : M (res linodeServer) :=
  match servers with
  | [] => ret (Err (Errorf "no powered off servers in Linode account"))
  | server :: rest =>
      if negb (srv_Status server =? linodePoweredOff)
      then Allocate_range image password rest
      else
        '(server, err) <- setup server image password ;;
        match err with
        | Some e => ret (Err e)
        | None => ret (Ok server)
        end
  end.

(** [linode.Allocate]. *)
Definition Allocate (image : ImageID) (password : string) : M (res linodeServer) :=
  r <- linode_list ;;
  match r with
  | Err e => ret (Err e)
  | Ok servers =>
      if (List.length servers =? 0)%nat
      then ret (Err (FatalError (Errorf "no servers in Linode account")))
      else Allocate_range image password servers
  end.


(** ** Notions used in the statements *)

(** The state after a request. *)
Definition after (params : linodeParams) (st : State) : State :=
  mkState (self st) (params :: sent st).


Definition named (system : string) (d : linodeDistro) : bool :=
  (d_Name d =? system)%string.

Definition named64 (system : string) (d : linodeDistro) : bool :=
  named system d && (d_Is64Bit d =? 1).

Definition latest64bit (k : linodeKernel) : bool := HasPrefix (k_Label k) "Latest 64 bit".
Definition latest32bit (k : linodeKernel) : bool := HasPrefix (k_Label k) "Latest 32 bit".

(** The last kernel of a list whose label has the prefix, if any. *)
Definition lastKernel (p : linodeKernel -> bool) (kernels : list linodeKernel)
    : option linodeKernel :=
  find p (rev kernels).

Definition idOr (k : option linodeKernel) (dflt : Z) : Z :=
  match k with
  | Some k => k_ID k
  | None => dflt
  end.

(** The error of one fetch of a retry loop, as the loop computes it from
    the reply: the error of [do], else the error of the envelope. *)
Definition attempt_err (r : Reply) (envelope : Body -> linodeResult)
    : Outcome (option error) :=
  match fst (do_result r) with
  | None => linodeResult_err (envelope (snd (do_result r)))
  | Some e => Ret (Some e)
  end.

Definition distros_attempt (st : State) : Outcome (option error) :=
  attempt_err (provider (distros_params :: sent st)) (fun b => dr_result (asDistros b)).

Definition kernels_attempt (st : State) : Outcome (option error) :=
  attempt_err (provider (kernels_params :: sent st)) (fun b => kr_result (asKernels b)).

(** The error side of a result pair. *)
Definition errOf {A : Type} (r : res A) : option error :=
  match r with
  | Err e => Some e
  | Ok _ => None
  end.

(** An error that is absent or is not a [FatalError]. *)
Definition plainErr (err : option error) : Prop :=
  match err with
  | Some e => isFatal e = false
  | None => True
  end.

(** The result pair of [linode.list] for a reply. *)
Definition listed (r : Reply) : res (list linodeServer) :=
  match fst (do_result r) with
  | Some e => Err e
  | None => Ok (lr_Data (asList (snd (do_result r))))
  end.

Definition poweredOff (s : linodeServer) : bool := srv_Status s =? linodePoweredOff.

(** The server that [setup] leaves behind when every step succeeds: the
    address is the public address that [ip] returned, the disks are those
    of the two disk jobs, and the configuration is the one created. *)
Definition provisioned (image : ImageID) (password : string)
    (s server : linodeServer) (st : State) : Prop :=
  exists a rootJob swapJob configID st1 st2 st3,
    ip (setImg s image) st = (Ret (Ok a), st1)
    /\ ip_IsPublic a = 1
    /\ createDisk (setAddr (setImg s image) (ip_IPAddress a)) image password st1
       = (Ret (Ok (Some rootJob, Some swapJob)), st2)
    /\ createConfig
         (setSwap (setRoot (setAddr (setImg s image) (ip_IPAddress a)) (dj_DiskID rootJob))
            (dj_DiskID swapJob))
         image (dj_DiskID rootJob) (dj_DiskID swapJob) st2
       = (Ret (Ok configID), st3)
    /\ server = mkServer (srv_ID s) (srv_Label s) (srv_Status s) (ip_IPAddress a) image
                  configID (dj_DiskID rootJob) (dj_DiskID swapJob).

(** What [Allocate] makes of the result of [setup]. *)
Definition allocated (r : Outcome (linodeServer * option error) * State)
    : Outcome (res linodeServer) * State :=
  match r with
  | (Ret (server, None), st) => (Ret (Ok server), st)
  | (Ret (_, Some e), st) => (Ret (Err e), st)
  | (Panic p, st) => (Panic p, st)
  end.

(** The error that [waitJob] reports for a poll or a job that failed. *)
Definition cannot (verb : string) (server : linodeServer) (e : error) : error :=
  Errorf ("cannot " ++ verb ++ " " ++ server_String server ++ ": " ++ Error e).

Definition timeoutErr (verb : string) (server : linodeServer) : error :=
  Errorf ("timeout waiting for " ++ server_String server ++ " to " ++ verb).

(** [polls server verb jobID n infoErr st infoErr' st']: from [st], with
    [infoErr] remembered, [n] ticks are polled and none shows a finish
    time; a poll that fails replaces the remembered error, a poll of a
    pending job keeps it; [infoErr'] is remembered in the end, in [st']. *)
Inductive polls (server : linodeServer) (verb : string) (jobID : Z)
    : nat -> option error -> State -> option error -> State -> Prop :=
| polls_none (infoErr : option error) (st : State) :
    polls server verb jobID 0 infoErr st infoErr st
| polls_error (n : nat) (infoErr infoErr' : option error) (st st1 st' : State)
    (err : error) :
    jobInfo server jobID st = (Ret (Err err), st1) ->
    polls server verb jobID n (Some (cannot verb server err)) st1 infoErr' st' ->
    polls server verb jobID (S n) infoErr st infoErr' st'
| polls_pending (n : nat) (infoErr infoErr' : option error) (st st1 st' : State)
    (job : linodeJobInfo) :
    jobInfo server jobID st = (Ret (Ok job), st1) ->
    ji_HostFinish job = EmptyString ->
    polls server verb jobID n infoErr st1 infoErr' st' ->
    polls server verb jobID (S n) infoErr st infoErr' st'.



(** ** Notions for the further properties *)

(** [m] relates every state it starts from to the state it leaves, with a
    result or with a panic. *)
Definition preserves {A : Type} (R : State -> State -> Prop) (m : M A) : Prop :=
  forall st, R st (snd (m st)).

(** The later state has sent the requests of the earlier one and, after
    them, only requests that are not a shutdown. *)
Definition noShutdownSince (st st' : State) : Prop :=
  exists added,
    sent st' = (added ++ sent st)%list
    /\ forallb (fun p => negb (isShutdown p)) added = true.

(** A catalogue that is done is the same in the later state. *)
Definition catalogueKept (st st' : State) : Prop :=
  distrosDone (self st) = true -> self st' = self st.

(** An envelope without error record. *)
Definition clean (r : linodeResult) : bool :=
  match Errors r with
  | [] => true
  | _ :: _ => false
  end.

Definition isPublic (a : linodeIP) : bool := ip_IsPublic a =? 1.

Definition isNil (err : option error) : bool :=
  match err with
  | None => true
  | Some _ => false
  end.

(** [configuredAt image password s server st st3]: from [st], [setup] on
    [s] has found the public address, created the two disks and created
    the configuration; [server] is the server with the fields that [setup]
    has set by then, and [st3] the state before the boot request. *)
Definition configuredAt (image : ImageID) (password : string)
    (s server : linodeServer) (st st3 : State) : Prop :=
  exists a rootJob swapJob configID st1 st2,
    ip (setImg s image) st = (Ret (Ok a), st1)
    /\ createDisk (setAddr (setImg s image) (ip_IPAddress a)) image password st1
       = (Ret (Ok (Some rootJob, Some swapJob)), st2)
    /\ createConfig
         (setSwap (setRoot (setAddr (setImg s image) (ip_IPAddress a)) (dj_DiskID rootJob))
            (dj_DiskID swapJob))
         image (dj_DiskID rootJob) (dj_DiskID swapJob) st2
       = (Ret (Ok configID), st3)
    /\ server = mkServer (srv_ID s) (srv_Label s) (srv_Status s) (ip_IPAddress a) image
                  configID (dj_DiskID rootJob) (dj_DiskID swapJob).






(** The log of [st'] is the log of [st] with requests added. *)
Definition grownFrom (st st' : State) : Prop :=
  exists more, sent st' = (more ++ sent st)%list.

(** The exchange failed before anything was decoded. *)
Definition notDecoded (r : Reply) : bool :=
  match r with
  | PostFailed _ | ReadFailed _ => true
  | Decoded _ _ => false
  end.

(** ** Error normalisation *)

Lemma string_of_byte_ascii (b0 b1 b2 b3 b4 b5 b6 : bool) :
  ToLower (string_of_byte (Ascii b0 b1 b2 b3 b4 b5 b6 false))
  = String (ascii_lower (Ascii b0 b1 b2 b3 b4 b5 b6 false)) EmptyString.
Proof.
  destruct b0, b1, b2, b3, b4, b5, b6; reflexivity.
Qed.

Lemma linodeResult_err_message (code : Z) (b : ascii) (rest : string)
    (es : list linodeError) :
  linodeResult_err (mkResult (mkError code (String b rest) :: es))
  = Ret (Some (Errorf (ToLower (string_of_byte b) ++ rest))).
Proof. reflexivity. Qed.

Lemma linodeJobInfo_err_returns (job : linodeJobInfo) :
  exists err, linodeJobInfo_err job = Ret err.
Proof.
  unfold linodeJobInfo_err.
  destruct ((ji_HostSuccess job =? 1) || negb (nonEmpty (ji_HostFinish job))).
  - now exists None.
  - destruct (ji_HostMessage job) as [|b rest]; cbn; eauto.
Qed.

(** C10.  [linodeResult.err] returns nil on an empty error list; on a first
    record with a non-empty message it returns the message with its first
    byte passed through [string] and [strings.ToLower] (for an ASCII byte:
    the byte lower-cased); on a first record with an empty message it panics
    with an index out of range.  [linodeJobInfo.err] never panics, and on an
    empty message it reports that the job failed silently. *)
Theorem linodeResult_err_partial :
  linodeResult_err (mkResult []) = Ret None
  /\ (forall code b rest es,
        linodeResult_err (mkResult (mkError code (String b rest) :: es))
        = Ret (Some (Errorf (ToLower (string_of_byte b) ++ rest))))
  /\ (forall code b0 b1 b2 b3 b4 b5 b6 rest es,
        linodeResult_err
          (mkResult (mkError code (String (Ascii b0 b1 b2 b3 b4 b5 b6 false) rest) :: es))
        = Ret (Some (Errorf (String (ascii_lower (Ascii b0 b1 b2 b3 b4 b5 b6 false)) rest))))
  /\ (forall code es,
        linodeResult_err (mkResult (mkError code EmptyString :: es))
        = Panic IndexOutOfRange)
  /\ (forall job, exists err, linodeJobInfo_err job = Ret err)
  /\ (forall id lid act lab st fin succ,
        linodeJobInfo_err (mkJobInfo id lid act lab st fin succ EmptyString)
        = Ret (if (succ =? 1) || negb (nonEmpty fin) then None
               else Some (Errorf ("job " ++ Itoa id ++ " failed silently")))).
Proof.
  split; [reflexivity|].
  split; [intros; apply linodeResult_err_message|].
  split.
  { intros. rewrite linodeResult_err_message, string_of_byte_ascii. reflexivity. }
  split; [reflexivity|].
  split; [apply linodeJobInfo_err_returns|].
  intros. unfold linodeJobInfo_err. cbn.
  destruct ((succ =? 1) || negb (nonEmpty fin)); reflexivity.
Qed.

(** ** The last loop of population *)


(** ** Resolution over the cache *)

Lemma find_snoc {A : Type} (p : A -> bool) (l : list A) (a : A) :
  find p (l ++ [a])%list
  = match find p l with
    | Some x => Some x
    | None => if p a then Some a else None
    end.
Proof.
  induction l as [|x l IH]; cbn.
  - reflexivity.
  - destruct (p x); [reflexivity | exact IH].
Qed.

(** The scan of [distro] returns the first entry of the wanted name that is
    64-bit; without one, the last entry of the wanted name; without any,
    what [best] held. *)
Lemma distro_range_find (system : string) (cache : list linodeDistro)
    (best : option linodeDistro) :
  distro_range system cache best
  = match find (named64 system) cache with
    | Some d => Ok d
    | None =>
        match find (named system) (rev cache) with
        | Some d => Ok d
        | None =>
            match best with
            | Some d => Ok d
            | None => Err (Errorf "cannot find system %!s(MISSING) in Linode")
            end
        end
    end.
Proof.
  revert best. induction cache as [|d rest IH]; intros best.
  - reflexivity.
  - cbn [distro_range find rev]. rewrite find_snoc. unfold named64 at 1.
    unfold named at 1 3.
    destruct (d_Name d =? system)%string; cbn [negb andb].
    + destruct (d_Is64Bit d =? 1); [reflexivity|].
      rewrite IH. destruct (find (named64 system) rest); [reflexivity|].
      destruct (find (named system) (rev rest)); reflexivity.
    + rewrite IH. destruct (find (named64 system) rest); [reflexivity|].
      destruct (find (named system) (rev rest)); reflexivity.
Qed.

(** ** Kernels *)

Lemma kernels_range_last (kernels : list linodeKernel) (latest32 latest64 : Z) :
  kernels_range kernels (latest32, latest64)
  = (idOr (lastKernel latest32bit kernels) latest32,
     idOr (lastKernel latest64bit kernels) latest64).
Proof.
  revert latest32 latest64. induction kernels as [|k rest IH]; intros latest32 latest64.
  - reflexivity.
  - cbn [kernels_range]. rewrite IH. unfold lastKernel. cbn [rev].
    rewrite !find_snoc. fold (latest64bit k). fold (latest32bit k).
    destruct (find latest32bit (rev rest)), (find latest64bit (rev rest));
      destruct (latest32bit k), (latest64bit k); reflexivity.
Qed.


(** ** Running the monad *)

Lemma bind_Ret {A B : Type} (m : M A) (k : A -> M B) (st st1 : State) (a : A) :
  m st = (Ret a, st1) -> bind m k st = k a st1.
Proof. intros H. unfold bind. rewrite H. reflexivity. Qed.

Lemma bind_inv {A B : Type} (m : M A) (k : A -> M B) (st st' : State) (b : B) :
  bind m k st = (Ret b, st') ->
  exists a st1, m st = (Ret a, st1) /\ k a st1 = (Ret b, st').
Proof.
  unfold bind. destruct (m st) as [[a|p] st1]; intros H.
  - exists a, st1. split; [reflexivity | exact H].
  - discriminate.
Qed.

Ltac bind_inv H a st1 Ha :=
  apply bind_inv in H; destruct H as (a & st1 & Ha & H).

Lemma ret_inv {A : Type} (a b : A) (st st' : State) :
  ret a st = (Ret b, st') -> a = b /\ st = st'.
Proof. unfold ret. intros H. inversion H. split; reflexivity. Qed.

Lemma lift_inv {A : Type} (o : Outcome A) (b : A) (st st' : State) :
  lift o st = (Ret b, st') -> o = Ret b /\ st = st'.
Proof. unfold lift. intros H. inversion H. split; reflexivity. Qed.

Lemma linode_do_run (params : linodeParams) (st : State) :
  linode_do params st = (Ret (do_result (provider (params :: sent st))), after params st).
Proof. reflexivity. Qed.

(** ** Resolution on a populated catalogue *)

Lemma distro_populated (image : ImageID) (st : State) :
  distrosDone (self st) = true ->
  distro image st
  = (Ret (distro_range (SystemID image) (distrosCache (self st)) None), st).
Proof.
  intros Hdone. destruct st as [[done dc kc] reqs]. cbn in Hdone. subst done.
  reflexivity.
Qed.

(** C5.  On a populated catalogue, resolution sends nothing and returns the
    first entry whose name is the system of the image and which is 64-bit;
    without such an entry, the last entry of that name (so a lone 32-bit
    entry is returned); without any entry of that name, the error that the
    system cannot be found. *)
Theorem distro_prefers_64bit (image : ImageID) (st : State) :
  distrosDone (self st) = true ->
  distro image st
  = (Ret (match find (named64 (SystemID image)) (distrosCache (self st)) with
          | Some d => Ok d
          | None =>
              match find (named (SystemID image)) (rev (distrosCache (self st))) with
              | Some d => Ok d
              | None => Err (Errorf "cannot find system %!s(MISSING) in Linode")
              end
          end), st).
Proof.
  intros Hdone. rewrite (distro_populated image st Hdone), distro_range_find.
  reflexivity.
Qed.


(** ** The retry loops *)

Lemma distros_retry_step (n : nat) (err : option error) (st : State) :
  distros_retry (S n) err st
  = match distros_attempt st with
    | Panic p => (Panic p, after distros_params st)
    | Ret None =>
        (Ret None,
         mkState
           (mkLinode (distrosDone (self st))
              (dr_Data (asDistros (snd (do_result (provider (distros_params :: sent st))))))
              (kernelsCache (self st)))
           (distros_params :: sent st))
    | Ret (Some e) => distros_retry n (Some e) (after distros_params st)
    end.
Proof.
  cbn [distros_retry]. unfold bind at 1. rewrite linode_do_run.
  unfold distros_attempt, attempt_err.
  destruct (do_result (provider (distros_params :: sent st))) as [e body].
  cbn [fst snd]. unfold bind at 1.
  destruct e as [e|]; cbn [orResultErr].
  - reflexivity.
  - unfold lift. destruct (linodeResult_err (dr_result (asDistros body))) as [[e|]|p];
      reflexivity.
Qed.

Lemma kernels_retry_step (n : nat) (err : option error) (st : State) :
  kernels_retry (S n) err st
  = match kernels_attempt st with
    | Panic p => (Panic p, after kernels_params st)
    | Ret None =>
        (Ret None,
         mkState
           (mkLinode (distrosDone (self st)) (distrosCache (self st))
              (kr_Data (asKernels (snd (do_result (provider (kernels_params :: sent st)))))))
           (kernels_params :: sent st))
    | Ret (Some e) => kernels_retry n (Some e) (after kernels_params st)
    end.
Proof.
  cbn [kernels_retry]. unfold bind at 1. rewrite linode_do_run.
  unfold kernels_attempt, attempt_err.
  destruct (do_result (provider (kernels_params :: sent st))) as [e body].
  cbn [fst snd]. unfold bind at 1.
  destruct e as [e|]; cbn [orResultErr].
  - reflexivity.
  - unfold lift. destruct (linodeResult_err (kr_result (asKernels body))) as [[e|]|p];
      reflexivity.
Qed.



(** ** Population *)




(** ** Reuse data *)

(** C8.  When the YAML library reads back the mapping it wrote, [Reuse]
    applied to [ReuseData] returns a server with the same ID, label,
    address, image, configuration ID, root disk ID and swap disk ID, and
    with the zero power-state code.  The mapping has no entry for the
    power-state code and does not depend on it, and no data gives [Reuse]
    a server with a power-state code other than zero. *)
Theorem Reuse_ReuseData :
  (forall s password,
      yaml_parse (yaml_emit (yaml_of_server s)) = inl (yaml_of_server s) ->
      Reuse (ReuseData s) password
      = Ok (mkServer (srv_ID s) (srv_Label s) 0 (srv_Addr s) (srv_Img s)
              (srv_Config s) (srv_Root s) (srv_Swap s)))
  /\ (forall s status,
        yaml_lookup "status" (yaml_of_server s) = None
        /\ ReuseData (mkServer (srv_ID s) (srv_Label s) status (srv_Addr s) (srv_Img s)
                        (srv_Config s) (srv_Root s) (srv_Swap s))
           = ReuseData s)
  /\ (forall data password s',
        Reuse data password = Ok s' -> srv_Status s' = 0).
Proof.
  split; [|split].
  - intros s password H. unfold Reuse, ReuseData. rewrite H. reflexivity.
  - intros s status. split; reflexivity.
  - intros data password s' H. unfold Reuse in H.
    destruct (yaml_parse data) as [doc|msg]; [|discriminate].
    destruct (yaml_to_server doc zeroServer) as [server|] eqn:Hs; [|discriminate].
    inversion H; subst s'. clear H. unfold yaml_to_server in Hs.
    destruct (yaml_int (srv_ID zeroServer) (yaml_lookup "id" doc)); [|discriminate].
    destruct (yaml_string (srv_Label zeroServer) (yaml_lookup "label" doc)); [|discriminate].
    destruct (yaml_string (srv_Addr zeroServer) (yaml_lookup "address" doc)); [|discriminate].
    destruct (yaml_string (srv_Img zeroServer) (yaml_lookup "image" doc)); [|discriminate].
    destruct (yaml_int (srv_Config zeroServer) (yaml_lookup "config" doc)); [|discriminate].
    destruct (yaml_int (srv_Root zeroServer) (yaml_lookup "root" doc)); [|discriminate].
    destruct (yaml_int (srv_Swap zeroServer) (yaml_lookup "swap" doc)); [|discriminate].
    inversion Hs. reflexivity.
Qed.

(** ** Only [Allocate] builds a [FatalError] *)

Ltac run1 :=
  match goal with
  | H : bind _ _ _ = (Ret _, _) |- _ =>
      apply bind_inv in H; destruct H as (? & ? & ? & H)
  | H : ret _ _ = (Ret _, _) |- _ => apply ret_inv in H; destruct H as [? ?]; subst
  | H : lift _ _ = (Ret _, _) |- _ => apply lift_inv in H; destruct H as [? ?]; subst
  | H : get_self _ = (Ret _, _) |- _ => inversion H; subst; clear H
  | H : put_self _ _ = (Ret _, _) |- _ => inversion H; subst; clear H
  | H : (match ?x with _ => _ end) _ = (Ret _, _) |- _ => destruct x eqn:?
  | H : (if ?b then _ else _) _ = (Ret _, _) |- _ => destruct b eqn:?
  | H : Panic _ = Ret _ |- _ => discriminate H
  | H : Ret _ = Ret _ |- _ => inversion H; subst; clear H
  | H : Some _ = Some _ |- _ => inversion H; subst; clear H
  | H : Some _ = None |- _ => discriminate H
  | H : None = Some _ |- _ => discriminate H
  | H : Ok _ = Ok _ |- _ => inversion H; subst; clear H
  | H : Err _ = Err _ |- _ => inversion H; subst; clear H
  | H : Ok _ = Err _ |- _ => discriminate H
  | H : Err _ = Ok _ |- _ => discriminate H
  | H : (_, _) = (_, _) |- _ => inversion H; subst; clear H
  end.

Ltac run := repeat run1.

Lemma do_result_plain (r : Reply) : plainErr (fst (do_result r)).
Proof. destruct r as [e|e|[e|] body]; cbn; auto. Qed.

Lemma linode_do_plain (params : linodeParams) (st st' : State)
    (err : option error) (body : Body) :
  linode_do params st = (Ret (err, body), st') -> plainErr err.
Proof.
  rewrite linode_do_run. intros H. inversion H as [[Hr Hs]].
  pose proof (do_result_plain (provider (params :: sent st))) as Hp.
  rewrite Hr in Hp. exact Hp.
Qed.

Lemma linodeResult_err_plain (r : linodeResult) (err : option error) :
  linodeResult_err r = Ret err -> plainErr err.
Proof.
  unfold linodeResult_err. destruct (Errors r) as [|e es].
  - intros H. inversion H. exact I.
  - destruct (err_Message e) as [|b rest]; cbn; intros H; inversion H. reflexivity.
Qed.

Lemma cacheDistros_plain (st st' : State) (err : option error) :
  cacheDistros st = (Ret err, st') -> plainErr err.
Proof.
  intros H. unfold cacheDistros in H. run; cbn; auto.
Qed.

Lemma distro_range_plain (system : string) (cache : list linodeDistro)
    (best : option linodeDistro) :
  plainErr (errOf (distro_range system cache best)).
Proof.
  rewrite distro_range_find.
  destruct (find (named64 system) cache); [exact I|].
  destruct (find (named system) (rev cache)); [exact I|].
  destruct best; cbn; auto.
Qed.

Lemma distro_plain (image : ImageID) (st st' : State) (r : res linodeDistro) :
  distro image st = (Ret r, st') -> plainErr (errOf r).
Proof.
  intros H. unfold distro in H. run;
    try apply distro_range_plain; try discriminate.
  all: match goal with
       | H : cacheDistros _ = (Ret (Some ?e), _) |- _ =>
           apply cacheDistros_plain in H; exact H
       end.
Qed.

Lemma linode_list_plain (st st' : State) (r : res (list linodeServer)) :
  linode_list st = (Ret r, st') -> plainErr (errOf r).
Proof.
  intros H. unfold linode_list in H. run; cbn; auto.
  match goal with
  | H : linode_do _ _ = _ |- _ => apply linode_do_plain in H; exact H
  end.
Qed.

Lemma ip_plain (server : linodeServer) (st st' : State) (r : res linodeIP) :
  ip server st = (Ret r, st') -> plainErr (errOf r).
Proof.
  intros H. unfold ip in H. run; cbn; auto.
  match goal with
  | H : linode_do _ _ = _ |- _ => apply linode_do_plain in H; exact H
  end.
Qed.

Lemma serverJob_plain (server : linodeServer) (verb : string) (params : linodeParams)
    (st st' : State) (r : res (option linodeJob)) :
  serverJob server verb params st = (Ret r, st') -> plainErr (errOf r).
Proof.
  intros H. unfold serverJob in H. run; cbn; auto.
Qed.

Lemma createDisk_plain (server : linodeServer) (image : ImageID) (password : string)
    (st st' : State) (r : res (option linodeDiskJob * option linodeDiskJob)) :
  createDisk server image password st = (Ret r, st') -> plainErr (errOf r).
Proof.
  intros H. unfold createDisk in H. run; cbn; auto.
  - unfold createDisk_fail in H. run; cbn; auto.
  - match goal with
    | H : distro _ _ = _ |- _ => apply distro_plain in H; exact H
    end.
Qed.

Lemma createConfig_plain (server : linodeServer) (image : ImageID) (rootID swapID : Z)
    (st st' : State) (r : res Z) :
  createConfig server image rootID swapID st = (Ret r, st') -> plainErr (errOf r).
Proof.
  intros H. unfold createConfig in H. run; cbn; auto.
  match goal with
  | H : distro _ _ = _ |- _ => apply distro_plain in H; exact H
  end.
Qed.

Lemma waitJob_select_plain (server : linodeServer) (verb : string) (jobID : Z)
    (n : nat) (infoErr : option error) (st st' : State)
    (job : option linodeJobInfo) (err : option error) :
  plainErr infoErr ->
  waitJob_select server verb jobID n infoErr st = (Ret (job, err), st') ->
  plainErr err.
Proof.
  revert infoErr st. induction n as [|n IH]; intros infoErr st Hinfo H; cbn in H.
  - destruct infoErr as [e|]; run; [exact Hinfo | reflexivity].
  - run; try reflexivity; try exact I.
    + eapply IH; [|eassumption]. exact Hinfo.
    + eapply IH; [|eassumption]. reflexivity.
Qed.

Lemma setup_plain (server : linodeServer) (image : ImageID) (password : string)
    (st st' : State) (server' : linodeServer) (err : option error) :
  setup server image password st = (Ret (server', err), st') -> plainErr err.
Proof.
  intros H. unfold setup in H. cbv zeta in H. unfold deref, waitJob in H. run;
    try exact I.
  all: match goal with
       | H : waitJob_select _ _ _ _ None _ = (Ret (_, Some ?e), _) |- plainErr (Some ?e) =>
           apply waitJob_select_plain in H; [exact H | exact I]
       | H : serverJob _ _ _ _ = (Ret (Err ?e), _) |- plainErr (Some ?e) =>
           apply serverJob_plain in H; exact H
       | H : boot _ _ _ = (Ret (Err ?e), _) |- plainErr (Some ?e) =>
           apply serverJob_plain in H; exact H
       | H : createConfig _ _ _ _ _ = (Ret (Err ?e), _) |- plainErr (Some ?e) =>
           apply createConfig_plain in H; exact H
       | H : createDisk _ _ _ _ = (Ret (Err ?e), _) |- plainErr (Some ?e) =>
           apply createDisk_plain in H; exact H
       | H : ip _ _ = (Ret (Err ?e), _) |- plainErr (Some ?e) =>
           apply ip_plain in H; exact H
       end.
Qed.

(** ** Allocation *)

Lemma linode_list_run (st : State) :
  linode_list st
  = (Ret (listed (provider (list_params :: sent st))), after list_params st).
Proof.
  unfold linode_list, listed. unfold bind. rewrite linode_do_run.
  destruct (do_result (provider (list_params :: sent st))) as [[e|] body]; reflexivity.
Qed.

Lemma ip_range_public (ips : list linodeIP) (a : linodeIP) :
  ip_range ips = Some a -> ip_IsPublic a = 1.
Proof.
  induction ips as [|x rest IH]; cbn; [discriminate|].
  destruct (ip_IsPublic x =? 1) eqn:E; intros H.
  - inversion H; subst. apply Z.eqb_eq. exact E.
  - apply IH. exact H.
Qed.

Lemma ip_public (server : linodeServer) (st st' : State) (a : linodeIP) :
  ip server st = (Ret (Ok a), st') -> ip_IsPublic a = 1.
Proof.
  intros H. unfold ip in H. run. eapply ip_range_public. eassumption.
Qed.

Lemma setup_success (s : linodeServer) (image : ImageID) (password : string)
    (st st' : State) (server : linodeServer) :
  setup s image password st = (Ret (server, None), st') ->
  provisioned image password s server st.
Proof.
  intros H. unfold setup in H. cbv zeta in H. unfold deref in H. run.
  all: unfold provisioned.
  all: match goal with
       | Hip : ip _ _ = (Ret (Ok ?a), ?st1),
         Hd : createDisk _ _ _ _ = (Ret (Ok (Some ?r, Some ?w)), ?st2),
         Hc : createConfig _ _ _ _ _ = (Ret (Ok ?c), ?st3) |- _ =>
           exists a, r, w, c, st1, st2, st3;
           split; [exact Hip|];
           split; [exact (ip_public _ _ _ _ Hip)|];
           split; [exact Hd|];
           split; [exact Hc|]; reflexivity
       end.
Qed.

Lemma Allocate_range_none (image : ImageID) (password : string)
    (servers : list linodeServer) (st : State) :
  forallb (fun s => negb (poweredOff s)) servers = true ->
  Allocate_range image password servers st
  = (Ret (Err (Errorf "no powered off servers in Linode account")), st).
Proof.
  induction servers as [|s rest IH]; cbn [forallb Allocate_range]; intros H.
  - reflexivity.
  - apply andb_prop in H. destruct H as [Hs Hrest]. unfold poweredOff in Hs.
    rewrite Hs. apply IH. exact Hrest.
Qed.

Lemma Allocate_range_first (image : ImageID) (password : string)
    (pre post : list linodeServer) (s : linodeServer) (st : State) :
  forallb (fun s => negb (poweredOff s)) pre = true ->
  poweredOff s = true ->
  Allocate_range image password (pre ++ s :: post)%list st
  = allocated (setup s image password st).
Proof.
  intros Hpre Hs. induction pre as [|x pre IH]; cbn [app forallb Allocate_range] in *.
  - unfold poweredOff in Hs. rewrite Hs. cbn [negb]. unfold bind, allocated.
    destruct (setup s image password st) as [[[server [e|]]|p] st']; reflexivity.
  - apply andb_prop in Hpre. destruct Hpre as [Hx Hpre]. unfold poweredOff in Hx.
    rewrite Hx. apply IH. exact Hpre.
Qed.

Lemma Allocate_range_plain (image : ImageID) (password : string)
    (servers : list linodeServer) (st st' : State) (r : res linodeServer) :
  Allocate_range image password servers st = (Ret r, st') -> plainErr (errOf r).
Proof.
  induction servers as [|s rest IH]; cbn [Allocate_range]; intros H.
  - inversion H. reflexivity.
  - destruct (negb (srv_Status s =? linodePoweredOff)); [apply IH; exact H|].
    run; cbn; auto.
    match goal with
    | H : setup _ _ _ _ = _ |- _ => apply setup_plain in H; exact H
    end.
Qed.

Lemma Allocate_range_success (image : ImageID) (password : string)
    (servers : list linodeServer) (st st' : State) (server : linodeServer) :
  Allocate_range image password servers st = (Ret (Ok server), st') ->
  exists pre s post,
    servers = (pre ++ s :: post)%list
    /\ forallb (fun s => negb (poweredOff s)) pre = true
    /\ poweredOff s = true
    /\ provisioned image password s server st.
Proof.
  induction servers as [|s rest IH]; cbn [Allocate_range]; intros H.
  - inversion H.
  - destruct (srv_Status s =? linodePoweredOff) eqn:E; cbn [negb] in H.
    + run. exists [], s, rest. repeat split; [exact E|].
      eapply setup_success. eassumption.
    + destruct (IH H) as (pre & s' & post & -> & Hpre & Hs & Hp).
      exists (s :: pre), s', post. repeat split; [|exact Hs|exact Hp].
      cbn [forallb]. unfold poweredOff at 1. rewrite E. exact Hpre.
Qed.

(** C2.  [Allocate] returns a [FatalError] exactly when the listing
    succeeds with no machine.  When the listed machines are not empty and
    none is powered off, it returns the plain error that no server is
    powered off, after the listing request alone.  When a machine is
    powered off, it is the first such machine in list order that is set up,
    and the outcome of [setup] is the outcome of [Allocate].  A server that
    [Allocate] returns is a listed powered-off machine with no powered-off
    machine before it, and has the public address that [ip] returned, the
    disk IDs of the two disk jobs and the ID of the configuration created. *)
Theorem Allocate_cases (image : ImageID) (password : string) (st : State) :
  let reply := provider (list_params :: sent st) in
  let st1 := after list_params st in
  ((exists e st', Allocate image password st = (Ret (Err e), st') /\ isFatal e = true)
   <-> listed reply = Ok [])
  /\ (forall servers,
        listed reply = Ok servers ->
        servers <> [] ->
        forallb (fun s => negb (poweredOff s)) servers = true ->
        Allocate image password st
        = (Ret (Err (Errorf "no powered off servers in Linode account")), st1)
        /\ isFatal (Errorf "no powered off servers in Linode account") = false)
  /\ (forall pre s post,
        listed reply = Ok (pre ++ s :: post)%list ->
        forallb (fun s => negb (poweredOff s)) pre = true ->
        poweredOff s = true ->
        Allocate image password st = allocated (setup s image password st1))
  /\ (forall server st',
        Allocate image password st = (Ret (Ok server), st') ->
        exists pre s post,
          listed reply = Ok (pre ++ s :: post)%list
          /\ forallb (fun s => negb (poweredOff s)) pre = true
          /\ poweredOff s = true
          /\ provisioned image password s server st1).
Proof.
  intros reply st1.
  assert (Hrun : Allocate image password st
                 = match listed reply with
                   | Err e => (Ret (Err e), st1)
                   | Ok servers =>
                       if (List.length servers =? 0)%nat
                       then (Ret (Err (FatalError (Errorf "no servers in Linode account"))), st1)
                       else Allocate_range image password servers st1
                   end).
  { unfold Allocate. unfold bind. rewrite linode_list_run. fold reply. fold st1.
    destruct (listed reply) as [servers|e]; [|reflexivity].
    destruct (List.length servers =? 0)%nat; reflexivity. }
  split; [|split; [|split]].
  - split.
    + intros (e & st' & H & Hfatal). rewrite Hrun in H.
      destruct (listed reply) as [servers|e0] eqn:Hl.
      * destruct servers as [|s rest]; [reflexivity|]. cbn [List.length Nat.eqb] in H.
        apply Allocate_range_plain in H. cbn in H. congruence.
      * inversion H; subst.
        pose proof (linode_list_plain st) as Hp. rewrite linode_list_run in Hp.
        fold reply in Hp. rewrite Hl in Hp. specialize (Hp _ _ eq_refl).
        cbn in Hp. congruence.
    + intros Hl. rewrite Hrun, Hl. cbn. eauto.
  - intros servers Hl Hne Hoff. split; [|reflexivity]. rewrite Hrun, Hl.
    destruct servers as [|s rest]; [congruence|]. cbn [List.length Nat.eqb].
    apply Allocate_range_none. exact Hoff.
  - intros pre s post Hl Hpre Hs. rewrite Hrun, Hl.
    assert (E : (List.length (pre ++ s :: post)%list =? 0)%nat = false)
      by (destruct pre; reflexivity).
    rewrite E. apply Allocate_range_first; assumption.
  - intros server st' H. rewrite Hrun in H.
    destruct (listed reply) as [servers|e0] eqn:Hl; [|discriminate].
    destruct (List.length servers =? 0)%nat; [discriminate|].
    apply Allocate_range_success in H.
    destruct H as (pre & s & post & -> & Hpre & Hs & Hp).
    exists pre, s, post. repeat split; assumption.
Qed.

(** ** Requests issued by the single steps *)

Lemma orResultErr_run (err : option error) (r : linodeResult) (st : State) :
  orResultErr err r st
  = (match err with
     | None => linodeResult_err r
     | Some _ => Ret err
     end, st).
Proof. destruct err; reflexivity. Qed.

Lemma serverJob_sent (server : linodeServer) (verb : string) (params : linodeParams)
    (st : State) :
  snd (serverJob server verb params st) = after params st.
Proof.
  unfold serverJob. unfold bind at 1. rewrite linode_do_run.
  destruct (do_result (provider (params :: sent st))) as [err body].
  unfold bind. rewrite orResultErr_run.
  destruct err as [e|]; [reflexivity|].
  destruct (linodeResult_err (jr_result (asJob body))) as [[e|]|p]; reflexivity.
Qed.

Lemma removeConfig_sent (server : linodeServer) (configID : Z) (st : State) :
  snd (removeConfig server configID st) = after (removeConfig_params server configID) st.
Proof.
  unfold removeConfig. unfold bind at 1. rewrite linode_do_run.
  destruct (do_result (provider (removeConfig_params server configID :: sent st)))
    as [err body].
  unfold bind. rewrite orResultErr_run.
  destruct err as [e|]; [reflexivity|].
  destruct (linodeResult_err (asResult body)) as [[e|]|p]; reflexivity.
Qed.

Lemma removeDisks_sent (server : linodeServer) (diskIDs : list Z) (st : State) :
  snd (removeDisks server diskIDs st) = after (removeDisks_params server diskIDs) st.
Proof.
  unfold removeDisks. unfold bind at 1. rewrite linode_do_run.
  destruct (do_result (provider (removeDisks_params server diskIDs :: sent st)))
    as [[e|] body]; reflexivity.
Qed.

Lemma jobInfo_sent (server : linodeServer) (jobID : Z) (st : State) :
  snd (jobInfo server jobID st) = after (jobInfo_params server jobID) st.
Proof.
  unfold jobInfo. unfold bind at 1. rewrite linode_do_run.
  destruct (do_result (provider (jobInfo_params server jobID :: sent st)))
    as [err body].
  cbv zeta. unfold bind at 1. rewrite orResultErr_run.
  destruct err as [e|]; [reflexivity|].
  destruct (linodeResult_err (jir_result (asJobInfo body))) as [[e|]|p];
    try reflexivity.
  destruct (jir_Data (asJobInfo body)); reflexivity.
Qed.

(** ** Teardown *)


(** ** Disk creation *)

(** The batch reply as [createDisk] reads it. *)
Lemma createDisk_run (server : linodeServer) (image : ImageID) (password : string)
    (st st1 : State) (d : linodeDistro) :
  distro image st = (Ret (Ok d), st1) ->
  let params := createDisk_params server (d_ID d) image password in
  let reply := do_result (provider (params :: sent st1)) in
  createDisk server image password st
  = match createDisk_range 0 (asDiskJobs (snd reply)) None (fst reply) with
    | Ret (Returned root swap) => (Ret (Ok (root, swap)), after params st1)
    | Ret (Left root err) =>
        createDisk_fail server image (asDiskJobs (snd reply)) root err (after params st1)
    | Panic p => (Panic p, after params st1)
    end.
Proof.
  intros Hd params reply. unfold createDisk. rewrite (bind_Ret _ _ _ _ _ Hd).
  unfold bind at 1. rewrite linode_do_run. fold params. fold reply.
  destruct reply as [err body]. cbn [fst snd]. cbv zeta. unfold bind, lift.
  destruct (createDisk_range 0 (asDiskJobs body) None err) as [[root swap|root e]|p];
    reflexivity.
Qed.


(** ** The job poller *)

(** A tick whose poll fails: the error is remembered and polling goes on. *)
Lemma waitJob_select_poll_error (server : linodeServer) (verb : string) (jobID : Z)
    (n : nat) (infoErr : option error) (st st1 : State) (err : error) :
  jobInfo server jobID st = (Ret (Err err), st1) ->
  waitJob_select server verb jobID (S n) infoErr st
  = waitJob_select server verb jobID n (Some (cannot verb server err)) st1.
Proof.
  intros H. cbn [waitJob_select]. rewrite (bind_Ret _ _ _ _ _ H). reflexivity.
Qed.

(** A tick whose poll shows no finish time: polling goes on unchanged. *)
Lemma waitJob_select_pending (server : linodeServer) (verb : string) (jobID : Z)
    (n : nat) (infoErr : option error) (st st1 : State) (job : linodeJobInfo) :
  jobInfo server jobID st = (Ret (Ok job), st1) ->
  ji_HostFinish job = EmptyString ->
  waitJob_select server verb jobID (S n) infoErr st
  = waitJob_select server verb jobID n infoErr st1.
Proof.
  intros H Hfin. cbn [waitJob_select]. rewrite (bind_Ret _ _ _ _ _ H).
  rewrite Hfin. reflexivity.
Qed.


(** The deadline after a poll error: the remembered error is returned and
    nothing is sent. *)
Lemma waitJob_select_deadline_error (server : linodeServer) (verb : string) (jobID : Z)
    (e : error) (st : State) :
  waitJob_select server verb jobID 0 (Some e) st = (Ret (None, Some e), st).
Proof. reflexivity. Qed.

(** The deadline without a poll error: when the two removals return, their
    errors are dropped, the timeout error is returned, and the removal of
    the configuration and of the two disks are the requests sent. *)
Lemma waitJob_select_deadline_timeout (server : linodeServer) (verb : string) (jobID : Z)
    (st st1 st2 : State) (err1 err2 : option error) :
  removeConfig server (srv_Config server) st = (Ret err1, st1) ->
  removeDisks server [srv_Root server; srv_Swap server] st1 = (Ret err2, st2) ->
  waitJob_select server verb jobID 0 None st
  = (Ret (None, Some (timeoutErr verb server)), st2)
  /\ sent st2
     = removeDisks_params server [srv_Root server; srv_Swap server]
         :: removeConfig_params server (srv_Config server) :: sent st.
Proof.
  intros H1 H2. split.
  - cbn [waitJob_select]. rewrite (bind_Ret _ _ _ _ _ H1).
    rewrite (bind_Ret _ _ _ _ _ H2). reflexivity.
  - pose proof (removeConfig_sent server (srv_Config server) st) as E1.
    pose proof (removeDisks_sent server [srv_Root server; srv_Swap server] st1) as E2.
    rewrite H1 in E1. rewrite H2 in E2. cbn [snd] in E1, E2. subst st1 st2.
    reflexivity.
Qed.



(** ** The catalogue cache *)

(** After a resolution that returns a distribution the catalogue is done. *)
Lemma distro_sets_done (image : ImageID) (st st' : State) (d : linodeDistro) :
  distro image st = (Ret (Ok d), st') -> distrosDone (self st') = true.
Proof.
  intros H. unfold distro in H. run; reflexivity.
Qed.




(** ** Runs of the job poller *)

Lemma polls_select (server : linodeServer) (verb : string) (jobID : Z)
    (n : nat) (infoErr infoErr' : option error) (st st' : State) :
  polls server verb jobID n infoErr st infoErr' st' ->
  forall m,
    waitJob_select server verb jobID (n + m) infoErr st
    = waitJob_select server verb jobID m infoErr' st'.
Proof.
  induction 1 as [infoErr st
                 | n infoErr infoErr' st st1 st' err Hpoll _ IH
                 | n infoErr infoErr' st st1 st' job Hpoll Hfin _ IH]; intros m.
  - reflexivity.
  - cbn [Nat.add]. rewrite (waitJob_select_poll_error _ _ _ _ _ _ _ _ Hpoll). apply IH.
  - cbn [Nat.add]. rewrite (waitJob_select_pending _ _ _ _ _ _ _ _ Hpoll Hfin). apply IH.
Qed.

Lemma polls_sent (server : linodeServer) (verb : string) (jobID : Z)
    (n : nat) (infoErr infoErr' : option error) (st st' : State) :
  polls server verb jobID n infoErr st infoErr' st' ->
  sent st' = (repeat (jobInfo_params server jobID) n ++ sent st)%list.
Proof.
  induction 1 as [infoErr st
                 | n infoErr infoErr' st st1 st' err Hpoll _ IH
                 | n infoErr infoErr' st st1 st' job Hpoll Hfin _ IH].
  - reflexivity.
  - pose proof (jobInfo_sent server jobID st) as E. rewrite Hpoll in E.
    cbn [snd] in E. subst st1. rewrite IH. cbn [after sent].
    change (jobInfo_params server jobID :: sent st)
      with ([jobInfo_params server jobID] ++ sent st)%list.
    rewrite app_assoc, <- repeat_cons. reflexivity.
  - pose proof (jobInfo_sent server jobID st) as E. rewrite Hpoll in E.
    cbn [snd] in E. subst st1. rewrite IH. cbn [after sent].
    change (jobInfo_params server jobID :: sent st)
      with ([jobInfo_params server jobID] ++ sent st)%list.
    rewrite app_assoc, <- repeat_cons. reflexivity.
Qed.



(** ** The catalogue is populated once *)




(** ** Relations kept by every step *)

Section Frame.

Variable R : State -> State -> Prop.
Hypothesis R_refl : forall st, R st st.
Hypothesis R_trans : forall st1 st2 st3, R st1 st2 -> R st2 st3 -> R st1 st3.

Lemma preserves_ret {A : Type} (a : A) : preserves R (ret a).
Proof. intros st. apply R_refl. Qed.

Lemma preserves_lift {A : Type} (o : Outcome A) : preserves R (lift o).
Proof. intros st. apply R_refl. Qed.

Lemma preserves_get_self : preserves R get_self.
Proof. intros st. apply R_refl. Qed.

Lemma preserves_bind {A B : Type} (m : M A) (k : A -> M B) :
  preserves R m -> (forall a, preserves R (k a)) -> preserves R (bind m k).
Proof.
  intros Hm Hk st. unfold bind. specialize (Hm st).
  destruct (m st) as [[a|p] st1]; cbn [snd] in *.
  - eapply R_trans; [exact Hm | apply Hk].
  - exact Hm.
Qed.

End Frame.

Section Steps.

Variable R : State -> State -> Prop.
Hypothesis R_refl : forall st, R st st.
Hypothesis R_trans : forall st1 st2 st3, R st1 st2 -> R st2 st3 -> R st1 st3.

(** The requests that the relation admits. *)
Variable ok : linodeParams -> Prop.
Hypothesis R_do : forall params st, ok params -> R st (after params st).

Ltac frame :=
  repeat match goal with
    | |- preserves _ (ret _) => apply preserves_ret; exact R_refl
    | |- preserves _ (lift _) => apply preserves_lift; exact R_refl
    | |- preserves _ get_self => apply preserves_get_self; exact R_refl
    | |- preserves _ (bind _ _) => apply preserves_bind; [exact R_trans | | intros ?]
    | |- preserves _ (match ?x with _ => _ end) => destruct x
    | |- preserves _ (if ?b then _ else _) => destruct b
    end.

Lemma preserves_do (params : linodeParams) :
  ok params -> preserves R (linode_do params).
Proof. intros Hok st. rewrite linode_do_run. apply R_do. exact Hok. Qed.

Lemma preserves_orResultErr (err : option error) (r : linodeResult) :
  preserves R (orResultErr err r).
Proof. unfold orResultErr. frame. Qed.

Lemma preserves_serverJob (server : linodeServer) (verb : string) (params : linodeParams) :
  ok params -> preserves R (serverJob server verb params).
Proof.
  intros Hok. unfold serverJob. frame.
  - apply preserves_do. exact Hok.
  - apply preserves_orResultErr.
Qed.

Lemma preserves_removeDisks (server : linodeServer) (diskIDs : list Z) :
  ok (removeDisks_params server diskIDs) -> preserves R (removeDisks server diskIDs).
Proof.
  intros Hok. unfold removeDisks. frame. apply preserves_do. exact Hok.
Qed.

Lemma preserves_removeConfig (server : linodeServer) (configID : Z) :
  ok (removeConfig_params server configID) -> preserves R (removeConfig server configID).
Proof.
  intros Hok. unfold removeConfig. frame.
  - apply preserves_do. exact Hok.
  - apply preserves_orResultErr.
Qed.

Lemma preserves_jobInfo (server : linodeServer) (jobID : Z) :
  ok (jobInfo_params server jobID) -> preserves R (jobInfo server jobID).
Proof.
  intros Hok. unfold jobInfo. cbv zeta. frame.
  - apply preserves_do. exact Hok.
  - apply preserves_orResultErr.
Qed.

Lemma preserves_ip (server : linodeServer) :
  ok (ip_params server) -> preserves R (ip server).
Proof.
  intros Hok. unfold ip. frame. apply preserves_do. exact Hok.
Qed.

Lemma preserves_Discard (s : linodeServer) :
  ok (shutdown_params s) ->
  ok (removeConfig_params s (srv_Config s)) ->
  ok (removeDisks_params s [srv_Root s; srv_Swap s]) ->
  preserves R (Discard s).
Proof.
  intros H1 H2 H3. unfold Discard. cbv zeta. frame.
  - apply preserves_serverJob. exact H1.
  - apply preserves_removeConfig. exact H2.
  - apply preserves_removeDisks. exact H3.
Qed.

(** The requests of an allocation are admitted, and resolution keeps the
    relation. *)
Hypothesis ok_list : ok list_params.
Hypothesis ok_ip : forall server, ok (ip_params server).
Hypothesis ok_createDisk :
  forall server distroID image password,
    ok (createDisk_params server distroID image password).
Hypothesis ok_createConfig :
  forall server kernelID image rootID swapID,
    ok (createConfig_params server kernelID image rootID swapID).
Hypothesis ok_reboot : forall server configID, ok (reboot_params server configID).
Hypothesis ok_jobInfo : forall server jobID, ok (jobInfo_params server jobID).
Hypothesis ok_removeConfig :
  forall server configID, ok (removeConfig_params server configID).
Hypothesis ok_removeDisks :
  forall server diskIDs, ok (removeDisks_params server diskIDs).
Hypothesis R_distro : forall image, preserves R (distro image).

Lemma preserves_createDisk (server : linodeServer) (image : ImageID) (password : string) :
  preserves R (createDisk server image password).
Proof.
  unfold createDisk. cbv zeta. frame.
  - apply R_distro.
  - apply preserves_do. apply ok_createDisk.
  - unfold createDisk_fail. cbv zeta. frame.
    apply preserves_removeDisks. apply ok_removeDisks.
Qed.

Lemma preserves_createConfig (server : linodeServer) (image : ImageID) (rootID swapID : Z) :
  preserves R (createConfig server image rootID swapID).
Proof.
  unfold createConfig. frame.
  - apply R_distro.
  - apply preserves_do. apply ok_createConfig.
  - apply preserves_orResultErr.
Qed.

Lemma preserves_waitJob_select (server : linodeServer) (verb : string) (jobID : Z)
    (n : nat) (infoErr : option error) :
  preserves R (waitJob_select server verb jobID n infoErr).
Proof.
  revert infoErr. induction n as [|n IH]; intros infoErr; cbn [waitJob_select].
  - frame.
    + apply preserves_removeConfig. apply ok_removeConfig.
    + apply preserves_removeDisks. apply ok_removeDisks.
  - apply preserves_bind; [exact R_trans | apply preserves_jobInfo; apply ok_jobInfo |].
    intros [job|err]; [|apply IH].
    destruct (nonEmpty (ji_HostFinish job)); [frame | apply IH].
Qed.

Lemma preserves_setup (server : linodeServer) (image : ImageID) (password : string) :
  preserves R (setup server image password).
Proof.
  unfold setup. cbv zeta. unfold deref, boot, waitJob.
  frame;
    first [ apply preserves_ip; apply ok_ip
          | apply preserves_createDisk
          | apply preserves_createConfig
          | apply preserves_removeDisks; apply ok_removeDisks
          | apply preserves_removeConfig; apply ok_removeConfig
          | apply preserves_serverJob; apply ok_reboot
          | apply preserves_waitJob_select ].
Qed.

Lemma preserves_Allocate_range (image : ImageID) (password : string)
    (servers : list linodeServer) :
  preserves R (Allocate_range image password servers).
Proof.
  induction servers as [|s rest IH]; cbn [Allocate_range].
  - frame.
  - destruct (negb (srv_Status s =? linodePoweredOff)); [exact IH|].
    frame. apply preserves_setup.
Qed.

Lemma preserves_Allocate (image : ImageID) (password : string) :
  preserves R (Allocate image password).
Proof.
  unfold Allocate, linode_list. frame; try apply preserves_Allocate_range.
  apply preserves_do. exact ok_list.
Qed.

End Steps.

Section Fetch.

Variable R : State -> State -> Prop.
Hypothesis R_refl : forall st, R st st.
Hypothesis R_trans : forall st1 st2 st3, R st1 st2 -> R st2 st3 -> R st1 st3.
Hypothesis R_fetch : forall st, R st (after distros_params st) /\ R st (after kernels_params st).
Hypothesis R_put : forall l st, R st (mkState l (sent st)).

Ltac frame :=
  repeat match goal with
    | |- preserves _ (ret _) => apply preserves_ret; exact R_refl
    | |- preserves _ (lift _) => apply preserves_lift; exact R_refl
    | |- preserves _ get_self => apply preserves_get_self; exact R_refl
    | |- preserves _ (put_self _) => intros ?; apply R_put
    | |- preserves _ (orResultErr _ _) => unfold orResultErr
    | |- preserves _ (bind _ _) => apply preserves_bind; [exact R_trans | | intros ?]
    | |- preserves _ (match ?x with _ => _ end) => destruct x
    | |- preserves _ (if ?b then _ else _) => destruct b
    end.

Lemma preserves_distros_retry (n : nat) (err : option error) :
  preserves R (distros_retry n err).
Proof.
  revert err. induction n as [|n IH]; intros err; cbn [distros_retry].
  - frame.
  - apply preserves_bind; [exact R_trans | |].
    + intros st. rewrite linode_do_run. apply R_fetch.
    + intros [e body]. apply preserves_bind; [exact R_trans | frame |].
      intros [e'|]; [apply IH | frame].
Qed.

Lemma preserves_kernels_retry (n : nat) (err : option error) :
  preserves R (kernels_retry n err).
Proof.
  revert err. induction n as [|n IH]; intros err; cbn [kernels_retry].
  - frame.
  - apply preserves_bind; [exact R_trans | |].
    + intros st. rewrite linode_do_run. apply R_fetch.
    + intros [e body]. apply preserves_bind; [exact R_trans | frame |].
      intros [e'|]; [apply IH | frame].
Qed.

Lemma preserves_cacheDistros : preserves R cacheDistros.
Proof.
  unfold cacheDistros.
  apply preserves_bind; [exact R_trans | apply preserves_distros_retry |].
  intros [e|]; [frame|].
  apply preserves_bind; [exact R_trans | apply preserves_kernels_retry |].
  intros [e|]; [frame|].
  apply preserves_bind; [exact R_trans | frame |]. intros l.
  destruct (kernels_range (kernelsCache l) (-1, -1)) as [l32 l64]. frame.
Qed.

Lemma preserves_distro (image : ImageID) : preserves R (distro image).
Proof.
  unfold distro.
  apply preserves_bind; [exact R_trans | frame |]. intros l.
  apply preserves_bind; [exact R_trans | |].
  - destruct (distrosDone l); [frame | apply preserves_cacheDistros].
  - intros [e|]; frame.
Qed.

End Fetch.

(** ** What an allocation never does *)

Lemma noShutdownSince_refl (st : State) : noShutdownSince st st.
Proof. exists []. split; reflexivity. Qed.

Lemma noShutdownSince_trans (st1 st2 st3 : State) :
  noShutdownSince st1 st2 -> noShutdownSince st2 st3 -> noShutdownSince st1 st3.
Proof.
  intros (a1 & H1 & F1) (a2 & H2 & F2). exists (a2 ++ a1)%list. split.
  - rewrite H2, H1, app_assoc. reflexivity.
  - rewrite forallb_app, F1, F2. reflexivity.
Qed.

Lemma noShutdownSince_do (params : linodeParams) (st : State) :
  isShutdown params = false -> noShutdownSince st (after params st).
Proof.
  intros H. exists [params]. split; [reflexivity|]. cbn. rewrite H. reflexivity.
Qed.

Lemma noShutdownSince_put (l : linode) (st : State) :
  noShutdownSince st (mkState l (sent st)).
Proof. exists []. split; reflexivity. Qed.

(** X1.  In every run of [Allocate], with a result, an error or a panic, no
    request sent is a shutdown. *)
Theorem Allocate_never_shuts_down (image : ImageID) (password : string) (st : State) :
  exists added,
    sent (snd (Allocate image password st)) = (added ++ sent st)%list
    /\ forallb (fun p => negb (isShutdown p)) added = true.
Proof.
  apply (preserves_Allocate noShutdownSince noShutdownSince_refl noShutdownSince_trans
           (fun p => isShutdown p = false) noShutdownSince_do);
    try (intros; reflexivity).
  intros image'. apply preserves_distro.
  - exact noShutdownSince_refl.
  - exact noShutdownSince_trans.
  - intros st0. split; apply noShutdownSince_do; reflexivity.
  - exact noShutdownSince_put.
Qed.

(** ** The catalogue is kept *)

Lemma catalogueKept_trans (st1 st2 st3 : State) :
  catalogueKept st1 st2 -> catalogueKept st2 st3 -> catalogueKept st1 st3.
Proof.
  unfold catalogueKept. intros H1 H2 Hdone. specialize (H1 Hdone).
  rewrite <- H1. apply H2. rewrite H1. exact Hdone.
Qed.

Lemma catalogueKept_distro (image : ImageID) : preserves catalogueKept (distro image).
Proof.
  intros st Hdone. rewrite (distro_populated image st Hdone). reflexivity.
Qed.

(** X2.  Once the catalogue is done, no run of [Allocate] changes the done
    flag or the two cached lists, whether it ends with a server, an error
    or a panic; and no run of [Discard] changes them in any state. *)
Theorem catalogue_never_changes :
  (forall image password st,
      distrosDone (self st) = true ->
      self (snd (Allocate image password st)) = self st)
  /\ (forall s st, self (snd (Discard s st)) = self st).
Proof.
  split.
  - intros image password st.
    apply (preserves_Allocate catalogueKept (fun st _ => eq_refl) catalogueKept_trans
             (fun _ => True) (fun _ _ _ _ => eq_refl));
      try (intros; exact I).
    exact catalogueKept_distro.
  - intros s st.
    apply (preserves_Discard (fun st st' => self st' = self st) (fun _ => eq_refl)
             (fun st1 st2 st3 H1 H2 => eq_trans H2 H1)
             (fun _ => True) (fun _ _ _ => eq_refl));
      exact I.
Qed.

(** ** The requests of a teardown *)

(** X3.  In every run, [Discard] sends the shutdown first, then the removal
    of the configuration, then the removal of the two disks, and nothing
    else; when it returns, all three have been sent, and when it panics the
    requests sent are the first one, two or three of them. *)
Theorem Discard_requests (s : linodeServer) (st : State) :
  let sh := shutdown_params s in
  let rc := removeConfig_params s (srv_Config s) in
  let rd := removeDisks_params s [srv_Root s; srv_Swap s] in
  match fst (Discard s st) with
  | Ret _ => sent (snd (Discard s st)) = rd :: rc :: sh :: sent st
  | Panic _ =>
      sent (snd (Discard s st)) = sh :: sent st
      \/ sent (snd (Discard s st)) = rc :: sh :: sent st
      \/ sent (snd (Discard s st)) = rd :: rc :: sh :: sent st
  end.
Proof.
  cbv zeta. unfold Discard, bind.
  pose proof (serverJob_sent s "shutdown" (shutdown_params s) st) as E1.
  fold (shutdown s) in E1.
  destruct (shutdown s st) as [[r1|p] st1]; cbn [snd] in E1; subst st1;
    [|left; reflexivity].
  pose proof (removeConfig_sent s (srv_Config s) (after (shutdown_params s) st)) as E2.
  destruct (removeConfig s (srv_Config s) (after (shutdown_params s) st))
    as [[err2|p] st2]; cbn [snd] in E2; subst st2;
    [|right; left; reflexivity].
  pose proof (removeDisks_sent s [srv_Root s; srv_Swap s]
                (after (removeConfig_params s (srv_Config s))
                   (after (shutdown_params s) st))) as E3.
  destruct (removeDisks s [srv_Root s; srv_Swap s]
              (after (removeConfig_params s (srv_Config s))
                 (after (shutdown_params s) st)))
    as [[err3|p] st3]; cbn [snd] in E3; subst st3.
  - reflexivity.
  - right; right; reflexivity.
Qed.

(** ** How many requests a wait and a population send *)

Lemma repeat_snoc {A : Type} (x : A) (n : nat) (l : list A) :
  (repeat x n ++ x :: l)%list = (repeat x (S n) ++ l)%list.
Proof.
  change (x :: l) with ([x] ++ l)%list. rewrite app_assoc, <- repeat_cons. reflexivity.
Qed.

Lemma waitJob_select_requests (server : linodeServer) (verb : string) (jobID : Z)
    (n : nat) (infoErr : option error) (st : State) :
  exists k added,
    (k <= n)%nat
    /\ sent (snd (waitJob_select server verb jobID n infoErr st))
       = (added ++ repeat (jobInfo_params server jobID) k ++ sent st)%list
    /\ (added = []
        \/ (k = n
            /\ (added = [removeConfig_params server (srv_Config server)]
                \/ added = [removeDisks_params server [srv_Root server; srv_Swap server];
                            removeConfig_params server (srv_Config server)]))).
Proof.
  revert infoErr st. induction n as [|n IH]; intros infoErr st; cbn [waitJob_select].
  - exists 0%nat. destruct infoErr as [e|].
    + exists []. repeat split; auto.
    + unfold bind.
      pose proof (removeConfig_sent server (srv_Config server) st) as E1.
      destruct (removeConfig server (srv_Config server) st) as [[err1|p] st1];
        cbn [snd] in E1; subst st1.
      * pose proof (removeDisks_sent server [srv_Root server; srv_Swap server]
                      (after (removeConfig_params server (srv_Config server)) st)) as E2.
        destruct (removeDisks server [srv_Root server; srv_Swap server]
                    (after (removeConfig_params server (srv_Config server)) st))
          as [[err2|p] st2]; cbn [snd] in E2; subst st2;
          exists [removeDisks_params server [srv_Root server; srv_Swap server];
                  removeConfig_params server (srv_Config server)];
          repeat split; auto.
      * exists [removeConfig_params server (srv_Config server)]. repeat split; auto.
  - unfold bind at 1.
    pose proof (jobInfo_sent server jobID st) as E.
    destruct (jobInfo server jobID st) as [[[job|err]|p] st1]; cbn [snd] in E; subst st1.
    + destruct (nonEmpty (ji_HostFinish job)).
      * exists 1%nat, []. split; [lia|]. split; [|left; reflexivity].
        unfold bind, lift. destruct (linodeJobInfo_err job) as [[e|]|p]; reflexivity.
      * destruct (IH infoErr (after (jobInfo_params server jobID) st))
          as (k & added & Hk & Hs & Ha).
        exists (S k), added. split; [lia|]. split.
        -- rewrite Hs. cbn [after sent]. rewrite repeat_snoc. reflexivity.
        -- destruct Ha as [Ha | [Hkn Ha]]; [left; exact Ha | right; split; [lia | exact Ha]].
    + destruct (IH (Some (Errorf ("cannot " ++ verb ++ " " ++ server_String server
                                  ++ ": " ++ Error err)))
                  (after (jobInfo_params server jobID) st))
        as (k & added & Hk & Hs & Ha).
      exists (S k), added. split; [lia|]. split.
      * rewrite Hs. cbn [after sent]. rewrite repeat_snoc. reflexivity.
      * destruct Ha as [Ha | [Hkn Ha]]; [left; exact Ha | right; split; [lia | exact Ha]].
    + exists 1%nat, []. split; [lia|]. split; [reflexivity | left; reflexivity].
Qed.

(** X4.  In every run, [waitJob] sends at most one poll per tick before the
    deadline, and after the polls nothing, or the removal of the
    configuration alone, or that removal and then the removal of the two
    disks; a removal is only sent once every tick has been polled.  So a
    wait sends at most as many requests as ticks, and two more. *)
Theorem waitJob_requests (server : linodeServer) (verb : string) (jobID : Z) (st : State) :
  (exists k added,
      (k <= ticks)%nat
      /\ sent (snd (waitJob server verb jobID st))
         = (added ++ repeat (jobInfo_params server jobID) k ++ sent st)%list
      /\ (added = []
          \/ (k = ticks
              /\ (added = [removeConfig_params server (srv_Config server)]
                  \/ added = [removeDisks_params server [srv_Root server; srv_Swap server];
                              removeConfig_params server (srv_Config server)]))))
  /\ (List.length (sent (snd (waitJob server verb jobID st)))
      <= List.length (sent st) + ticks + 2)%nat.
Proof.
  destruct (waitJob_select_requests server verb jobID ticks None st)
    as (k & added & Hk & Hs & Ha).
  split.
  - exists k, added. repeat split; assumption.
  - unfold waitJob. rewrite Hs. rewrite !length_app, repeat_length.
    assert (List.length added <= 2)%nat.
    { destruct Ha as [-> | [_ [-> | ->]]]; cbn; lia. }
    lia.
Qed.

Lemma distros_retry_requests (n : nat) (err : option error) (st : State) :
  exists i,
    (1 <= i <= S n)%nat
    /\ sent (snd (distros_retry (S n) err st)) = (repeat distros_params i ++ sent st)%list.
Proof.
  revert err st. induction n as [|n IH]; intros err st; rewrite distros_retry_step.
  - exists 1%nat. split; [lia|]. destruct (distros_attempt st) as [[e|]|p]; reflexivity.
  - destruct (distros_attempt st) as [[e|]|p].
    + destruct (IH (Some e) (after distros_params st)) as (i & Hi & Hs).
      exists (S i). split; [lia|]. rewrite Hs. cbn [after sent].
      rewrite repeat_snoc. reflexivity.
    + exists 1%nat. split; [lia | reflexivity].
    + exists 1%nat. split; [lia | reflexivity].
Qed.

Lemma kernels_retry_requests (n : nat) (err : option error) (st : State) :
  exists j,
    (j <= n)%nat
    /\ sent (snd (kernels_retry n err st)) = (repeat kernels_params j ++ sent st)%list.
Proof.
  revert err st. induction n as [|n IH]; intros err st.
  - exists 0%nat. split; [lia | reflexivity].
  - rewrite kernels_retry_step. destruct (kernels_attempt st) as [[e|]|p].
    + destruct (IH (Some e) (after kernels_params st)) as (j & Hj & Hs).
      exists (S j). split; [lia|]. rewrite Hs. cbn [after sent].
      rewrite repeat_snoc. reflexivity.
    + exists 1%nat. split; [lia | reflexivity].
    + exists 1%nat. split; [lia | reflexivity].
Qed.

Lemma cacheDistros_requests (st : State) :
  exists i j,
    (1 <= i <= 3)%nat /\ (j <= 3)%nat
    /\ sent (snd (cacheDistros st))
       = (repeat kernels_params j ++ repeat distros_params i ++ sent st)%list.
Proof.
  unfold cacheDistros. unfold bind at 1.
  destruct (distros_retry_requests 2 None st) as (i & Hi & Hd).
  destruct (distros_retry 3 None st) as [[[e|]|p] st1]; cbn [snd] in Hd;
    try (exists i, 0%nat; repeat split; try lia; exact Hd).
  unfold bind at 1.
  destruct (kernels_retry_requests 3 None st1) as (j & Hj & Hk).
  destruct (kernels_retry 3 None st1) as [[[e|]|p] st2]; cbn [snd] in Hk;
    try (exists i, j; repeat split; try lia; cbn [snd ret]; rewrite Hk, Hd; reflexivity).
  unfold bind at 1. unfold get_self.
  destruct (kernels_range (kernelsCache (self st2)) (-1, -1)) as [l32 l64].
  exists i, j. repeat split; try lia.
  destruct ((l32 =? -1) || (l64 =? -1)).
  - cbn [snd ret]. rewrite Hk, Hd. reflexivity.
  - unfold bind, lift.
    destruct (distros_range l32 l64 (distrosCache (self st2))) as [ds|p];
      cbn; rewrite Hk, Hd; reflexivity.
Qed.

(** X5.  In every run, a resolution sends nothing when the catalogue is
    done; otherwise it asks for the distributions one to three times, then
    for the kernels at most three times, and sends nothing else: at most
    six requests. *)
Theorem distro_requests (image : ImageID) (st : State) :
  if distrosDone (self st)
  then sent (snd (distro image st)) = sent st
  else exists i j,
         (1 <= i <= 3)%nat /\ (j <= 3)%nat
         /\ sent (snd (distro image st))
            = (repeat kernels_params j ++ repeat distros_params i ++ sent st)%list.
Proof.
  destruct (distrosDone (self st)) eqn:Hdone.
  - rewrite (distro_populated image st Hdone). reflexivity.
  - destruct (cacheDistros_requests st) as (i & j & Hi & Hj & Hs).
    exists i, j. split; [exact Hi|]. split; [exact Hj|].
    unfold distro. unfold bind at 1. unfold get_self. rewrite Hdone.
    unfold bind at 1.
    destruct (cacheDistros st) as [[[e|]|p] st1]; cbn [snd] in Hs; exact Hs.
Qed.

(** ** The batch of [createDisk], sub-result by sub-result *)

(** X6.  When the first two sub-results of the batch carry no provider
    error, [createDisk] returns their two disk jobs and sends nothing after
    the batch, whatever error [do] reported for the reply, whatever the
    sub-results after the second hold, and also when a sub-result holds no
    disk data. *)
Theorem createDisk_two_clean (server : linodeServer) (image : ImageID) (password : string)
    (st st1 : State) (d : linodeDistro)
    (r0 r1 : linodeDiskJobResult) (more : list linodeDiskJobResult) :
  distro image st = (Ret (Ok d), st1) ->
  asDiskJobs (snd (do_result (provider
     (createDisk_params server (d_ID d) image password :: sent st1)))) = r0 :: r1 :: more ->
  linodeResult_err (djr_result r0) = Ret None ->
  linodeResult_err (djr_result r1) = Ret None ->
  createDisk server image password st
  = (Ret (Ok (djr_Data r0, djr_Data r1)),
     after (createDisk_params server (d_ID d) image password) st1).
Proof.
  intros Hd Hres H0 H1. rewrite (createDisk_run server image password st st1 d Hd).
  cbv zeta. rewrite Hres. cbn [createDisk_range]. rewrite H0. cbn [obind createDisk_range].
  rewrite H1. reflexivity.
Qed.

(** X7.  A batch reply with a single sub-result that carries no provider
    error is a failure: the removal of that root disk is sent and, when it
    returns, [createDisk] returns an error that ends with the error of
    [do], or with [<nil>] when [do] reported none. *)
Theorem createDisk_lone_root (server : linodeServer) (image : ImageID) (password : string)
    (st st1 st2 : State) (d : linodeDistro)
    (r0 : linodeDiskJobResult) (root : linodeDiskJob) (rmErr : option error) :
  distro image st = (Ret (Ok d), st1) ->
  let params := createDisk_params server (d_ID d) image password in
  let reply := do_result (provider (params :: sent st1)) in
  asDiskJobs (snd reply) = [r0] ->
  linodeResult_err (djr_result r0) = Ret None ->
  djr_Data r0 = Some root ->
  removeDisks server [dj_DiskID root] (after params st1) = (Ret rmErr, st2) ->
  createDisk server image password st
  = (Ret (Err (Errorf ("cannot create Linode disk with " ++ image ++ ": "
                       ++ fmt_v (fst reply)))), st2)
  /\ sent st2 = removeDisks_params server [dj_DiskID root] :: params :: sent st1.
Proof.
  intros Hd params reply Hres H0 Hroot Hrm. split.
  - rewrite (createDisk_run server image password st st1 d Hd).
    cbv zeta. fold params. fold reply. rewrite Hres. cbn [createDisk_range].
    rewrite H0. cbn [obind createDisk_range]. rewrite Hroot.
    unfold createDisk_fail. unfold bind at 1. unfold bind at 1. rewrite Hrm.
    reflexivity.
  - pose proof (removeDisks_sent server [dj_DiskID root] (after params st1)) as E.
    rewrite Hrm in E. cbn [snd] in E. subst st2. reflexivity.
Qed.

(** X8.  When the root sub-result carries the provider error [e], the
    batch is the only request: nothing is removed, the sub-results after
    the first are not looked at, so that a swap disk that the batch created
    stays, and the error returned is built from [e]. *)
Theorem createDisk_root_error (server : linodeServer) (image : ImageID) (password : string)
    (st st1 : State) (d : linodeDistro)
    (r0 : linodeDiskJobResult) (more : list linodeDiskJobResult) (e : error) :
  distro image st = (Ret (Ok d), st1) ->
  asDiskJobs (snd (do_result (provider
     (createDisk_params server (d_ID d) image password :: sent st1)))) = r0 :: more ->
  linodeResult_err (djr_result r0) = Ret (Some e) ->
  createDisk server image password st
  = (Ret (Err (Errorf ("cannot create Linode disk with " ++ image ++ ": " ++ Error e))),
     after (createDisk_params server (d_ID d) image password) st1).
Proof.
  intros Hd Hres H0. rewrite (createDisk_run server image password st st1 d Hd).
  cbv zeta. rewrite Hres. cbn [createDisk_range]. rewrite H0. reflexivity.
Qed.

(** ** An image that the catalogue does not hold *)

(** X9.  On a catalogue that is done and holds no distribution of the
    wanted name, [createDisk] and [createConfig] return the error that the
    system cannot be found and send no request: no disk and no
    configuration is asked for. *)
Theorem unknown_image_sends_nothing (server : linodeServer) (image : ImageID)
    (password : string) (rootID swapID : Z) (st : State) :
  distrosDone (self st) = true ->
  find (named (SystemID image)) (distrosCache (self st)) = None ->
  createDisk server image password st
  = (Ret (Err (Errorf "cannot find system %!s(MISSING) in Linode")), st)
  /\ createConfig server image rootID swapID st
     = (Ret (Err (Errorf "cannot find system %!s(MISSING) in Linode")), st).
Proof.
  intros Hdone Hnone.
  assert (Hd : distro image st
               = (Ret (Err (Errorf "cannot find system %!s(MISSING) in Linode")), st)).
  { rewrite (distro_populated image st Hdone), distro_range_find.
    assert (H64 : find (named64 (SystemID image)) (distrosCache (self st)) = None).
    { destruct (find (named64 (SystemID image)) (distrosCache (self st))) as [x|] eqn:E;
        [|reflexivity].
      apply find_some in E. destruct E as [Hin Hx]. unfold named64 in Hx.
      apply andb_prop in Hx. destruct Hx as [Hx _].
      pose proof (find_none _ _ Hnone x Hin) as Hn. congruence. }
    assert (Hrev : find (named (SystemID image)) (rev (distrosCache (self st))) = None).
    { destruct (find (named (SystemID image)) (rev (distrosCache (self st)))) as [x|] eqn:E;
        [|reflexivity].
      apply find_some in E. destruct E as [Hin Hx]. apply in_rev in Hin.
      pose proof (find_none _ _ Hnone x Hin) as Hn. congruence. }
    rewrite H64, Hrev. reflexivity. }
  split.
  - unfold createDisk. rewrite (bind_Ret _ _ _ _ _ Hd). reflexivity.
  - unfold createConfig. rewrite (bind_Ret _ _ _ _ _ Hd). reflexivity.
Qed.

(** ** Replies read by the single calls *)

Lemma clean_err (r : linodeResult) : clean r = true -> linodeResult_err r = Ret None.
Proof.
  unfold clean, linodeResult_err. destruct (Errors r); [reflexivity | discriminate].
Qed.

Lemma removeDisks_range_clean (server : linodeServer) (results : list linodeResult) :
  forallb clean results = true -> removeDisks_range server results = Ret None.
Proof.
  induction results as [|r rest IH]; cbn [forallb removeDisks_range]; intros H.
  - reflexivity.
  - apply andb_prop in H. destruct H as [Hr Hrest].
    rewrite (clean_err r Hr). cbn [obind]. apply IH. exact Hrest.
Qed.

Lemma removeDisks_range_first (server : linodeServer)
    (pre post : list linodeResult) (r : linodeResult) (e : error) :
  forallb clean pre = true ->
  linodeResult_err r = Ret (Some e) ->
  removeDisks_range server (pre ++ r :: post)
  = Ret (Some (Errorf ("cannot remove disk on " ++ server_String server
                       ++ ": " ++ Error e))).
Proof.
  intros Hpre Hr. induction pre as [|x pre IH]; cbn [app forallb removeDisks_range] in *.
  - rewrite Hr. reflexivity.
  - apply andb_prop in Hpre. destruct Hpre as [Hx Hpre].
    rewrite (clean_err x Hx). cbn [obind]. apply IH. exact Hpre.
Qed.

(** X10.  [removeDisks] sends one batch.  An error of [do] is returned
    wrapped.  Otherwise the sub-results are read in order: when none holds
    an error record the result is no error, also when the reply holds fewer
    sub-results than disks or none at all; and the first sub-result with a
    provider error decides the error, whatever comes after it. *)
Theorem removeDisks_results (server : linodeServer) (diskIDs : list Z) (st : State) :
  let reply := do_result (provider (removeDisks_params server diskIDs :: sent st)) in
  let st' := after (removeDisks_params server diskIDs) st in
  (forall e,
      fst reply = Some e ->
      removeDisks server diskIDs st
      = (Ret (Some (Errorf ("cannot remove disk on " ++ server_String server
                            ++ ": " ++ Error e))), st'))
  /\ (fst reply = None ->
      forallb clean (asResults (snd reply)) = true ->
      removeDisks server diskIDs st = (Ret None, st'))
  /\ (forall pre r post e,
        fst reply = None ->
        asResults (snd reply) = (pre ++ r :: post)%list ->
        forallb clean pre = true ->
        linodeResult_err r = Ret (Some e) ->
        removeDisks server diskIDs st
        = (Ret (Some (Errorf ("cannot remove disk on " ++ server_String server
                              ++ ": " ++ Error e))), st')).
Proof.
  intros reply st'.
  assert (Hrun : removeDisks server diskIDs st
                 = match fst reply with
                   | Some e =>
                       (Ret (Some (Errorf ("cannot remove disk on "
                                           ++ server_String server ++ ": " ++ Error e))), st')
                   | None => (removeDisks_range server (asResults (snd reply)), st')
                   end).
  { unfold removeDisks. unfold bind. rewrite linode_do_run. fold reply. fold st'.
    destruct reply as [[e|] body]; reflexivity. }
  split; [|split].
  - intros e He. rewrite Hrun, He. reflexivity.
  - intros He Hclean. rewrite Hrun, He, (removeDisks_range_clean server _ Hclean).
    reflexivity.
  - intros pre r post e He Hres Hpre Hr.
    rewrite Hrun, He, Hres, (removeDisks_range_first server pre post r e Hpre Hr).
    reflexivity.
Qed.

(** X11.  [jobInfo] sends one request.  An error of [do] is returned
    wrapped, whatever was decoded.  On an envelope without error record
    the first job of the list is returned and the others are ignored; an
    empty list gives the error of an empty result, so the indexing of the
    list never panics. *)
Theorem jobInfo_results (server : linodeServer) (jobID : Z) (st : State) :
  let reply := do_result (provider (jobInfo_params server jobID :: sent st)) in
  let st' := after (jobInfo_params server jobID) st in
  (forall e,
      fst reply = Some e ->
      jobInfo server jobID st
      = (Ret (Err (Errorf ("cannot get job details for " ++ server_String server
                           ++ ": " ++ Error e))), st'))
  /\ (fst reply = None ->
      clean (jir_result (asJobInfo (snd reply))) = true ->
      jobInfo server jobID st
      = (Ret (match jir_Data (asJobInfo (snd reply)) with
              | job :: _ => Ok job
              | [] =>
                  Err (Errorf ("cannot get job details for " ++ server_String server
                               ++ ": empty result"))
              end), st')).
Proof.
  intros reply st'. split.
  - intros e He. unfold jobInfo. unfold bind at 1. rewrite linode_do_run. fold reply.
    destruct reply as [err body]. cbn [fst] in He. subst err. reflexivity.
  - intros He Hclean. unfold jobInfo. unfold bind at 1. rewrite linode_do_run. fold reply.
    destruct reply as [err body]. cbn [fst snd] in *. subst err. cbv zeta.
    unfold bind at 1. rewrite orResultErr_run. rewrite (clean_err _ Hclean).
    destruct (jir_Data (asJobInfo body)) as [|job rest]; reflexivity.
Qed.

Lemma ip_range_find (ips : list linodeIP) : ip_range ips = find isPublic ips.
Proof.
  induction ips as [|a rest IH]; cbn [ip_range find]; [reflexivity|].
  unfold isPublic at 1. destruct (ip_IsPublic a =? 1); [reflexivity | exact IH].
Qed.

(** X12.  [ip] sends one request.  An error of [do] is returned as it is,
    without the name of the server.  On an envelope without error record
    the first address of the list that is marked public is returned, and
    when no address is marked public the error says that no public IP was
    found. *)
Theorem ip_results (server : linodeServer) (st : State) :
  let reply := do_result (provider (ip_params server :: sent st)) in
  let st' := after (ip_params server) st in
  (forall e, fst reply = Some e -> ip server st = (Ret (Err e), st'))
  /\ (fst reply = None ->
      clean (ipr_result (asIP (snd reply))) = true ->
      ip server st
      = (Ret (match find isPublic (ipr_Data (asIP (snd reply))) with
              | Some a => Ok a
              | None =>
                  Err (Errorf ("cannot find public IP for " ++ server_String server))
              end), st')).
Proof.
  intros reply st'. split.
  - intros e He. unfold ip. unfold bind at 1. rewrite linode_do_run. fold reply.
    destruct reply as [err body]. cbn [fst] in He. subst err. reflexivity.
  - intros He Hclean. unfold ip. unfold bind at 1. rewrite linode_do_run. fold reply.
    destruct reply as [err body]. cbn [fst snd] in *. subst err.
    unfold bind, lift. rewrite (clean_err _ Hclean). rewrite ip_range_find.
    destruct (find isPublic (ipr_Data (asIP body))); reflexivity.
Qed.

(** ** The first error of a list *)

(** X13.  [firstErr] returns nil exactly when every error of the list is
    nil, and it returns [e] exactly when [e] stands in the list with only
    nil errors before it. *)
Theorem firstErr_first (errs : list (option error)) :
  (firstErr errs = None <-> forallb isNil errs = true)
  /\ (forall e,
        firstErr errs = Some e
        <-> exists pre post,
              errs = (pre ++ Some e :: post)%list /\ forallb isNil pre = true).
Proof.
  induction errs as [|[x|] rest [IHn IHs]]; cbn [firstErr forallb isNil].
  - split; [split; reflexivity|]. intros e. split; [discriminate|].
    intros (pre & post & H & _). destruct pre; discriminate.
  - split; [split; discriminate|]. intros e. split.
    + intros H. inversion H; subst. exists [], rest. split; reflexivity.
    + intros (pre & post & H & Hpre). destruct pre as [|y pre].
      * inversion H. reflexivity.
      * inversion H; subst. discriminate.
  - split; [exact IHn|]. intros e. split.
    + intros H. apply IHs in H. destruct H as (pre & post & -> & Hpre).
      exists (None :: pre), post. split; [reflexivity | exact Hpre].
    + intros (pre & post & H & Hpre). destruct pre as [|y pre]; [discriminate|].
      inversion H; subst. cbn [forallb] in Hpre. apply andb_prop in Hpre.
      apply IHs. exists pre, post. split; [reflexivity | apply Hpre].
Qed.

(** ** What a resolution returns *)

Lemma distro_range_named (system : string) (cache : list linodeDistro)
    (d : linodeDistro) :
  distro_range system cache None = Ok d -> d_Name d = system /\ In d cache.
Proof.
  rewrite distro_range_find. intros H.
  destruct (find (named64 system) cache) as [x|] eqn:E64.
  - inversion H; subst x. apply find_some in E64. destruct E64 as [Hin Hn].
    unfold named64 in Hn. apply andb_prop in Hn. destruct Hn as [Hn _].
    unfold named in Hn. apply String.eqb_eq in Hn. split; [exact Hn | exact Hin].
  - destruct (find (named system) (rev cache)) as [y|] eqn:Erev; [|discriminate].
    inversion H; subst y. apply find_some in Erev. destruct Erev as [Hin Hn].
    apply in_rev in Hin. unfold named in Hn. apply String.eqb_eq in Hn.
    split; [exact Hn | exact Hin].
Qed.

(** X14.  In any state, populated or not, a distribution that [distro]
    returns has the system of the image as its name and stands in the
    cached list of the state that the call leaves. *)
Theorem distro_returns_named (image : ImageID) (st st' : State) (d : linodeDistro) :
  distro image st = (Ret (Ok d), st') ->
  d_Name d = SystemID image /\ In d (distrosCache (self st')).
Proof.
  intros H. unfold distro in H. run.
  all: match goal with
       | H : distro_range _ _ None = Ok _ |- _ =>
           apply distro_range_named in H; exact H
       end.
Qed.

(** ** The sentinel of the kernel scan *)

(** X15.  The kernel scan marks a kernel that was not found by the ID -1.
    When both lists are fetched and the last kernel whose label has one of
    the two prefixes has the ID -1, population returns the error that the
    latest kernel cannot be found, although a kernel with the prefix is
    listed. *)
Theorem cacheDistros_kernel_minus_one (st st1 st2 : State) (k : linodeKernel) :
  distros_retry 3 None st = (Ret None, st1) ->
  kernels_retry 3 None st1 = (Ret None, st2) ->
  lastKernel latest64bit (kernelsCache (self st2)) = Some k
  \/ lastKernel latest32bit (kernelsCache (self st2)) = Some k ->
  k_ID k = -1 ->
  cacheDistros st = (Ret (Some (Errorf "cannot find latest Linode kernel")), st2).
Proof.
  intros H1 H2 Hlast Hid. unfold cacheDistros. rewrite (bind_Ret _ _ _ _ _ H1).
  rewrite (bind_Ret _ _ _ _ _ H2). unfold get_self, bind at 1.
  rewrite kernels_range_last.
  destruct Hlast as [Hk|Hk]; rewrite Hk; cbn [idOr]; rewrite Hid.
  - rewrite Z.eqb_refl, orb_true_r. reflexivity.
  - rewrite Z.eqb_refl. reflexivity.
Qed.

(** ** What [setup] undoes *)

(** [setup] from the boot request on, once the configuration exists. *)
Lemma setup_configured (image : ImageID) (password : string)
    (s server : linodeServer) (st st3 : State) :
  configuredAt image password s server st st3 ->
  setup s image password st
  = (b <- boot server (srv_Config server) ;;
     err <- match b with
            | Err e => ret (Some e)
            | Ok bootJob =>
                bootJob <- deref bootJob ;;
                '(_, err) <- waitJob server "boot" (job_JobID bootJob) ;;
                ret err
            end ;;
     match err with
     | Some e =>
         removeConfig server (srv_Config server) ;;
         removeDisks server [srv_Root server; srv_Swap server] ;;
         ret (server, Some e)
     | None => ret (server, None)
     end) st3.
Proof.
  intros (a & rootJob & swapJob & configID & st1 & st2 & Hip & Hd & Hc & ->).
  unfold setup. cbv zeta. rewrite (bind_Ret _ _ _ _ _ Hip).
  rewrite (bind_Ret _ _ _ _ _ Hd). unfold deref at 1 2.
  unfold bind at 1. unfold ret at 1. unfold bind at 1. unfold ret at 1.
  cbn [srv_Root srv_Swap setSwap setRoot].
  rewrite (bind_Ret _ _ _ _ _ Hc). reflexivity.
Qed.

(** X16.  When the address is found and the two disks are created but the
    configuration is not, [setup] sends the removal of the two new disks as
    its last request and, when the removal returns, returns the error of
    [createConfig] whatever the removal returned; no configuration is
    removed. *)
Theorem setup_config_failure (server : linodeServer) (image : ImageID) (password : string)
    (st st1 st2 st3 : State) (a : linodeIP) (rootJob swapJob : linodeDiskJob) (e : error) :
  let withDisks :=
    setSwap (setRoot (setAddr (setImg server image) (ip_IPAddress a)) (dj_DiskID rootJob))
      (dj_DiskID swapJob) in
  let removal := removeDisks_params withDisks [dj_DiskID rootJob; dj_DiskID swapJob] in
  ip (setImg server image) st = (Ret (Ok a), st1) ->
  createDisk (setAddr (setImg server image) (ip_IPAddress a)) image password st1
  = (Ret (Ok (Some rootJob, Some swapJob)), st2) ->
  createConfig withDisks image (dj_DiskID rootJob) (dj_DiskID swapJob) st2
  = (Ret (Err e), st3) ->
  setup server image password st
  = (match fst (removeDisks withDisks [dj_DiskID rootJob; dj_DiskID swapJob] st3) with
     | Ret _ => Ret (withDisks, Some e)
     | Panic p => Panic p
     end,
     after removal st3).
Proof.
  intros withDisks removal Hip Hd Hc.
  unfold setup. cbv zeta. rewrite (bind_Ret _ _ _ _ _ Hip).
  rewrite (bind_Ret _ _ _ _ _ Hd). unfold deref at 1 2.
  unfold bind at 1. unfold ret at 1. unfold bind at 1. unfold ret at 1.
  cbn [srv_Root srv_Swap setSwap setRoot]. fold withDisks.
  rewrite (bind_Ret _ _ _ _ _ Hc).
  pose proof (removeDisks_sent withDisks [dj_DiskID rootJob; dj_DiskID swapJob] st3) as E.
  unfold bind at 1.
  destruct (removeDisks withDisks [dj_DiskID rootJob; dj_DiskID swapJob] st3)
    as [[r|p] st4]; cbn [snd fst] in *; subst st4; reflexivity.
Qed.

(** X17.  When the configuration exists and the boot request fails,
    [setup] sends the removal of the configuration and then the removal of
    the two disks and, when both return, returns the error of the boot
    request whatever the removals returned; no job is polled. *)
Theorem setup_boot_refused (image : ImageID) (password : string)
    (s server : linodeServer) (st st3 st4 st5 st6 : State)
    (e : error) (err1 err2 : option error) :
  configuredAt image password s server st st3 ->
  boot server (srv_Config server) st3 = (Ret (Err e), st4) ->
  removeConfig server (srv_Config server) st4 = (Ret err1, st5) ->
  removeDisks server [srv_Root server; srv_Swap server] st5 = (Ret err2, st6) ->
  setup s image password st = (Ret (server, Some e), st6)
  /\ sent st6
     = removeDisks_params server [srv_Root server; srv_Swap server]
         :: removeConfig_params server (srv_Config server)
         :: reboot_params server (srv_Config server) :: sent st3.
Proof.
  intros Hconf Hb H1 H2. split.
  - rewrite (setup_configured image password s server st st3 Hconf).
    rewrite (bind_Ret _ _ _ _ _ Hb). unfold bind at 1. unfold ret at 1.
    rewrite (bind_Ret _ _ _ _ _ H1). rewrite (bind_Ret _ _ _ _ _ H2). reflexivity.
  - pose proof (serverJob_sent server "reboot" (reboot_params server (srv_Config server)) st3)
      as Eb.
    pose proof (removeConfig_sent server (srv_Config server) st4) as E1.
    pose proof (removeDisks_sent server [srv_Root server; srv_Swap server] st5) as E2.
    unfold boot in Hb. rewrite Hb in Eb. rewrite H1 in E1. rewrite H2 in E2.
    cbn [snd] in Eb, E1, E2. subst st4 st5 st6. reflexivity.
Qed.

(** X18.  When the boot job is started and every poll before the deadline
    shows it pending, the configuration and the two disks are removed
    twice: once by [waitJob] at the deadline and once more by [setup] on
    the timeout error.  When the four removals return, [setup] returns the
    timeout error, and the requests after the boot request are the polls
    followed by the two removals, twice. *)
Theorem setup_timeout_removes_twice (image : ImageID) (password : string)
    (s server : linodeServer) (st st3 st4 st5 st6 st7 st8 st9 : State)
    (bootJob : linodeJob) (err1 err2 err3 err4 : option error) :
  configuredAt image password s server st st3 ->
  boot server (srv_Config server) st3 = (Ret (Ok (Some bootJob)), st4) ->
  polls server "boot" (job_JobID bootJob) ticks None st4 None st5 ->
  removeConfig server (srv_Config server) st5 = (Ret err1, st6) ->
  removeDisks server [srv_Root server; srv_Swap server] st6 = (Ret err2, st7) ->
  removeConfig server (srv_Config server) st7 = (Ret err3, st8) ->
  removeDisks server [srv_Root server; srv_Swap server] st8 = (Ret err4, st9) ->
  setup s image password st = (Ret (server, Some (timeoutErr "boot" server)), st9)
  /\ sent st9
     = ([ removeDisks_params server [srv_Root server; srv_Swap server];
          removeConfig_params server (srv_Config server);
          removeDisks_params server [srv_Root server; srv_Swap server];
          removeConfig_params server (srv_Config server) ]
        ++ repeat (jobInfo_params server (job_JobID bootJob)) ticks
        ++ reboot_params server (srv_Config server) :: sent st3)%list.
Proof.
  intros Hconf Hb Hpolls H1 H2 H3 H4.
  assert (Hwait : waitJob server "boot" (job_JobID bootJob) st4
                  = (Ret (None, Some (timeoutErr "boot" server)), st7)).
  { unfold waitJob.
    pose proof (polls_select _ _ _ _ _ _ _ _ Hpolls 0%nat) as Hsel.
    rewrite Nat.add_0_r in Hsel. rewrite Hsel.
    exact (proj1 (waitJob_select_deadline_timeout server "boot" (job_JobID bootJob)
                    st5 st6 st7 err1 err2 H1 H2)). }
  split.
  - rewrite (setup_configured image password s server st st3 Hconf).
    rewrite (bind_Ret _ _ _ _ _ Hb). unfold bind at 1. unfold deref, bind at 1.
    unfold ret at 1. rewrite (bind_Ret _ _ _ _ _ Hwait). unfold ret at 1.
    rewrite (bind_Ret _ _ _ _ _ H3). rewrite (bind_Ret _ _ _ _ _ H4). reflexivity.
  - pose proof (serverJob_sent server "reboot" (reboot_params server (srv_Config server)) st3)
      as Eb.
    pose proof (polls_sent _ _ _ _ _ _ _ _ Hpolls) as Ep.
    pose proof (removeConfig_sent server (srv_Config server) st5) as E1.
    pose proof (removeDisks_sent server [srv_Root server; srv_Swap server] st6) as E2.
    pose proof (removeConfig_sent server (srv_Config server) st7) as E3.
    pose proof (removeDisks_sent server [srv_Root server; srv_Swap server] st8) as E4.
    unfold boot in Hb. rewrite Hb in Eb. rewrite H1 in E1. rewrite H2 in E2.
    rewrite H3 in E3. rewrite H4 in E4. cbn [snd] in Eb, E1, E2, E3, E4.
    subst st9 st8 st7 st6. cbn [after sent app]. rewrite Ep. subst st4. reflexivity.
Qed.

(** X19.  A reply without provider error that holds no data stops [setup]
    with a nil dereference and nothing is undone: when [createDisk]
    returns without error and without one of the two disk jobs, [setup]
    panics in the state that [createDisk] left; and when the boot request
    returns without error and without a job, [setup] panics right after
    the boot request, with the configuration and the disks in place. *)
Theorem setup_missing_data (s : linodeServer) (image : ImageID) (password : string)
    (st : State) :
  (forall a st1 st2 rootJob swapJob,
      ip (setImg s image) st = (Ret (Ok a), st1) ->
      createDisk (setAddr (setImg s image) (ip_IPAddress a)) image password st1
      = (Ret (Ok (rootJob, swapJob)), st2) ->
      rootJob = None \/ swapJob = None ->
      setup s image password st = (Panic NilDereference, st2))
  /\ (forall server st3 st4,
        configuredAt image password s server st st3 ->
        boot server (srv_Config server) st3 = (Ret (Ok None), st4) ->
        setup s image password st = (Panic NilDereference, st4)
        /\ sent st4 = reboot_params server (srv_Config server) :: sent st3).
Proof.
  split.
  - intros a st1 st2 rootJob swapJob Hip Hd Hnil.
    unfold setup. cbv zeta. rewrite (bind_Ret _ _ _ _ _ Hip).
    rewrite (bind_Ret _ _ _ _ _ Hd).
    destruct rootJob as [r|]; [|reflexivity].
    destruct swapJob as [w|]; [|reflexivity].
    destruct Hnil; discriminate.
  - intros server st3 st4 Hconf Hb. split.
    + rewrite (setup_configured image password s server st st3 Hconf).
      rewrite (bind_Ret _ _ _ _ _ Hb). reflexivity.
    + pose proof (serverJob_sent server "reboot"
                    (reboot_params server (srv_Config server)) st3) as Eb.
      unfold boot in Hb. rewrite Hb in Eb. cbn [snd] in Eb. subst st4. reflexivity.
Qed.

(** ** The catalogue as an invariant *)



Lemma distro_returns (image : ImageID) (st st' : State) (d : linodeDistro) :
  distro image st = (Ret (Ok d), st') ->
  distro_range (SystemID image) (distrosCache (self st')) None = Ok d.
Proof.
  intros H. unfold distro in H. run; assumption.
Qed.


(** ** The shape of a computed name *)








(** ** One entry for the disks and the configuration *)

Lemma createDisk_fail_errs (server : linodeServer) (image : ImageID)
    (results : list linodeDiskJobResult) (root : option linodeDiskJob)
    (err : option error) (st st' : State)
    (jobs : option linodeDiskJob * option linodeDiskJob) :
  createDisk_fail server image results root err st <> (Ret (Ok jobs), st').
Proof.
  unfold createDisk_fail. cbv zeta. unfold bind at 1. destruct root as [r|].
  - unfold bind at 1. destruct (removeDisks server [dj_DiskID r] st) as [[e|p] st1];
      cbn; discriminate.
  - cbn. discriminate.
Qed.

Lemma createConfig_sent (server : linodeServer) (image : ImageID) (rootID swapID : Z)
    (st st1 : State) (d : linodeDistro) :
  distro image st = (Ret (Ok d), st1) ->
  snd (createConfig server image rootID swapID st)
  = after (createConfig_params server (d_KernelID d) image rootID swapID) st1.
Proof.
  intros Hd. unfold createConfig. rewrite (bind_Ret _ _ _ _ _ Hd).
  unfold bind at 1. rewrite linode_do_run.
  destruct (do_result (provider (createConfig_params server (d_KernelID d) image rootID
                                   swapID :: sent st1))) as [[e|] body];
    cbn [orResultErr]; unfold bind, ret, lift; [reflexivity|].
  destruct (linodeResult_err (cr_result (asConfig body))) as [[e|]|p]; reflexivity.
Qed.

(** X22.  A creation of the disks that succeeds has resolved the image to
    one catalogue entry and has sent the batch with the ID of that entry as
    its last request.  A creation of the configuration for the same image
    that follows fetches nothing: its only request is the creation of the
    configuration, with the kernel of that same entry. *)
Theorem disks_and_config_share_entry (server : linodeServer) (image : ImageID)
    (password : string) (st st2 : State)
    (jobs : option linodeDiskJob * option linodeDiskJob) :
  createDisk server image password st = (Ret (Ok jobs), st2) ->
  exists d st1,
    distro image st = (Ret (Ok d), st1)
    /\ st2 = after (createDisk_params server (d_ID d) image password) st1
    /\ forall server' rootID swapID,
         snd (createConfig server' image rootID swapID st2)
         = after (createConfig_params server' (d_KernelID d) image rootID swapID) st2.
Proof.
  intros H.
  assert (Hres : exists d st1, distro image st = (Ret (Ok d), st1)).
  { unfold createDisk in H. apply bind_inv in H. destruct H as ([d|e] & st1 & Hd & H).
    - exists d, st1. exact Hd.
    - apply ret_inv in H. destruct H as [H _]. discriminate. }
  destruct Hres as (d & st1 & Hd). exists d, st1. split; [exact Hd|].
  rewrite (createDisk_run server image password st st1 d Hd) in H. cbv zeta in H.
  assert (Hst : st2 = after (createDisk_params server (d_ID d) image password) st1).
  { destruct (createDisk_range 0 _ None _) as [[root swap|root e]|p] in H.
    - inversion H. reflexivity.
    - exfalso. exact (createDisk_fail_errs _ _ _ _ _ _ _ _ H).
    - discriminate. }
  split; [exact Hst|]. intros server' rootID swapID.
  apply createConfig_sent.
  assert (Hdone : distrosDone (self st2) = true).
  { subst st2. exact (distro_sets_done image st st1 d Hd). }
  rewrite (distro_populated image st2 Hdone). subst st2. cbn [after self].
  rewrite (distro_returns image st st1 d Hd). reflexivity.
Qed.

(** ** A request that gets no reply *)

(** X23.  When the exchange of the batch fails before a reply is decoded,
    [createDisk] does not report the error of [do]: it returns the error of
    an empty batch result, and the batch is its only request. *)
Theorem createDisk_hides_transport_error (server : linodeServer) (image : ImageID)
    (password : string) (st st1 : State) (d : linodeDistro) :
  distro image st = (Ret (Ok d), st1) ->
  notDecoded (provider (createDisk_params server (d_ID d) image password :: sent st1))
  = true ->
  (exists e,
      fst (do_result (provider (createDisk_params server (d_ID d) image password
                                  :: sent st1))) = Some e)
  /\ createDisk server image password st
     = (Ret (Err (Errorf ("cannot create Linode disk with " ++ image
                          ++ ": empty batch result"))),
        after (createDisk_params server (d_ID d) image password) st1).
Proof.
  intros Hd Hfail. rewrite (createDisk_run server image password st st1 d Hd). cbv zeta.
  destruct (provider (createDisk_params server (d_ID d) image password :: sent st1))
    as [e|e|err body]; try discriminate; cbn [do_result fst snd asDiskJobs];
    (split; [eexists; reflexivity | reflexivity]).
Qed.

(** ** The listing comes first *)

Lemma grownFrom_refl (st : State) : grownFrom st st.
Proof. exists []. reflexivity. Qed.

Lemma grownFrom_trans (st1 st2 st3 : State) :
  grownFrom st1 st2 -> grownFrom st2 st3 -> grownFrom st1 st3.
Proof.
  intros (a1 & H1) (a2 & H2). exists (a2 ++ a1)%list.
  rewrite H2, H1, app_assoc. reflexivity.
Qed.

Lemma grownFrom_do (params : linodeParams) (st : State) :
  True -> grownFrom st (after params st).
Proof. intros _. exists [params]. reflexivity. Qed.

Lemma grownFrom_distro (image : ImageID) : preserves grownFrom (distro image).
Proof.
  apply preserves_distro.
  - exact grownFrom_refl.
  - exact grownFrom_trans.
  - intros st. split; apply grownFrom_do; exact I.
  - intros l st. exists []. reflexivity.
Qed.

(** X24.  In every run of [Allocate] the listing is the first request
    sent.  When the listing fails, [Allocate] returns the error of [do] as
    it is and sends nothing else. *)
Theorem Allocate_lists_first (image : ImageID) (password : string) (st : State) :
  (exists more,
      sent (snd (Allocate image password st)) = (more ++ list_params :: sent st)%list)
  /\ (forall e,
        listed (provider (list_params :: sent st)) = Err e ->
        Allocate image password st = (Ret (Err e), after list_params st)).
Proof.
  assert (Hrun : Allocate image password st
                 = match listed (provider (list_params :: sent st)) with
                   | Err e => (Ret (Err e), after list_params st)
                   | Ok servers =>
                       if (List.length servers =? 0)%nat
                       then (Ret (Err (FatalError (Errorf "no servers in Linode account"))),
                             after list_params st)
                       else Allocate_range image password servers (after list_params st)
                   end).
  { unfold Allocate. unfold bind. rewrite linode_list_run.
    destruct (listed (provider (list_params :: sent st))) as [servers|e]; [|reflexivity].
    destruct (List.length servers =? 0)%nat; reflexivity. }
  split.
  - rewrite Hrun.
    destruct (listed (provider (list_params :: sent st))) as [servers|e];
      [|exists []; reflexivity].
    destruct (List.length servers =? 0)%nat; [exists []; reflexivity|].
    apply (preserves_Allocate_range grownFrom grownFrom_refl grownFrom_trans
             (fun _ => True) grownFrom_do);
      try (intros; exact I).
    exact grownFrom_distro.
  - intros e He. rewrite Hrun, He. reflexivity.
Qed.

(** ** The requests of an allocation that succeeds *)

Lemma ip_sent (server : linodeServer) (st : State) :
  snd (ip server st) = after (ip_params server) st.
Proof.
  unfold ip. unfold bind at 1. rewrite linode_do_run.
  destruct (do_result (provider (ip_params server :: sent st))) as [[e|] body];
    [reflexivity|].
  unfold bind, lift, ret.
  destruct (linodeResult_err (ipr_result (asIP body))) as [[e|]|p]; try reflexivity.
  destruct (ip_range (ipr_Data (asIP body))); reflexivity.
Qed.

Lemma distro_sent (image : ImageID) (st : State) :
  exists i j,
    (i <= 3)%nat /\ (j <= 3)%nat
    /\ (distrosDone (self st) = true -> i = 0%nat /\ j = 0%nat)
    /\ sent (snd (distro image st))
       = (repeat kernels_params j ++ repeat distros_params i ++ sent st)%list.
Proof.
  destruct (distrosDone (self st)) eqn:Hdone.
  - exists 0%nat, 0%nat. rewrite (distro_populated image st Hdone).
    repeat split; try lia.
  - destruct (cacheDistros_requests st) as (i & j & Hi & Hj & Hs).
    exists i, j. repeat split; try lia; try discriminate.
    unfold distro. unfold bind at 1. unfold get_self. rewrite Hdone.
    unfold bind at 1.
    destruct (cacheDistros st) as [[[e|]|p] st1]; cbn [snd] in Hs; exact Hs.
Qed.

Lemma createDisk_success (server : linodeServer) (image : ImageID) (password : string)
    (st st2 : State) (jobs : option linodeDiskJob * option linodeDiskJob) :
  createDisk server image password st = (Ret (Ok jobs), st2) ->
  exists d st1,
    distro image st = (Ret (Ok d), st1)
    /\ st2 = after (createDisk_params server (d_ID d) image password) st1.
Proof.
  intros H.
  assert (Hres : exists d st1, distro image st = (Ret (Ok d), st1)).
  { unfold createDisk in H. apply bind_inv in H. destruct H as ([d|e] & st1 & Hd & H).
    - exists d, st1. exact Hd.
    - apply ret_inv in H. destruct H as [H _]. discriminate. }
  destruct Hres as (d & st1 & Hd). exists d, st1. split; [exact Hd|].
  rewrite (createDisk_run server image password st st1 d Hd) in H. cbv zeta in H.
  destruct (createDisk_range 0 _ None _) as [[root swap|root e]|p] in H.
  - inversion H. reflexivity.
  - exfalso. exact (createDisk_fail_errs _ _ _ _ _ _ _ _ H).
  - discriminate.
Qed.

Lemma createConfig_success (server : linodeServer) (image : ImageID) (rootID swapID : Z)
    (st st' : State) (configID : Z) :
  createConfig server image rootID swapID st = (Ret (Ok configID), st') ->
  exists d st1,
    distro image st = (Ret (Ok d), st1)
    /\ st' = after (createConfig_params server (d_KernelID d) image rootID swapID) st1.
Proof.
  intros H.
  assert (Hres : exists d st1, distro image st = (Ret (Ok d), st1)).
  { unfold createConfig in H. apply bind_inv in H. destruct H as ([d|e] & st1 & Hd & H).
    - exists d, st1. exact Hd.
    - apply ret_inv in H. destruct H as [H _]. discriminate. }
  destruct Hres as (d & st1 & Hd). exists d, st1. split; [exact Hd|].
  pose proof (createConfig_sent server image rootID swapID st st1 d Hd) as E.
  rewrite H in E. exact E.
Qed.

Lemma waitJob_select_success (server : linodeServer) (verb : string) (jobID : Z)
    (n : nat) (infoErr : option error) (st st' : State) (job : option linodeJobInfo) :
  waitJob_select server verb jobID n infoErr st = (Ret (job, None), st') ->
  exists k,
    (1 <= k <= n)%nat
    /\ sent st' = (repeat (jobInfo_params server jobID) k ++ sent st)%list.
Proof.
  revert infoErr st. induction n as [|n IH]; intros infoErr st H; cbn [waitJob_select] in H.
  - destruct infoErr as [e|]; run.
  - apply bind_inv in H. destruct H as (r & st1 & Hpoll & H).
    pose proof (jobInfo_sent server jobID st) as E. rewrite Hpoll in E.
    cbn [snd] in E. subst st1.
    assert (Hmore : waitJob_select server verb jobID n
                      (match r with
                       | Err err =>
                           Some (Errorf ("cannot " ++ verb ++ " " ++ server_String server
                                         ++ ": " ++ Error err))
                       | Ok _ => infoErr
                       end) (after (jobInfo_params server jobID) st)
                    = (Ret (job, None), st') ->
                    exists k,
                      (1 <= k <= S n)%nat
                      /\ sent st' = (repeat (jobInfo_params server jobID) k ++ sent st)%list).
    { intros Hn. destruct (IH _ _ Hn) as (k & Hk & Hs). exists (S k). split; [lia|].
      rewrite Hs. cbn [after sent]. apply repeat_snoc. }
    destruct r as [j|err]; [|exact (Hmore H)].
    destruct (nonEmpty (ji_HostFinish j)); [|exact (Hmore H)].
    exists 1%nat. split; [lia|]. run; reflexivity.
Qed.

Lemma setup_success_steps (s : linodeServer) (image : ImageID) (password : string)
    (st st' : State) (server : linodeServer) :
  setup s image password st = (Ret (server, None), st') ->
  exists a rootJob swapJob configID bootJob job st1 st2 st3 st4,
    ip (setImg s image) st = (Ret (Ok a), st1)
    /\ createDisk (setAddr (setImg s image) (ip_IPAddress a)) image password st1
       = (Ret (Ok (Some rootJob, Some swapJob)), st2)
    /\ createConfig
         (setSwap (setRoot (setAddr (setImg s image) (ip_IPAddress a)) (dj_DiskID rootJob))
            (dj_DiskID swapJob))
         image (dj_DiskID rootJob) (dj_DiskID swapJob) st2
       = (Ret (Ok configID), st3)
    /\ server = mkServer (srv_ID s) (srv_Label s) (srv_Status s) (ip_IPAddress a) image
                  configID (dj_DiskID rootJob) (dj_DiskID swapJob)
    /\ boot server configID st3 = (Ret (Ok (Some bootJob)), st4)
    /\ waitJob server "boot" (job_JobID bootJob) st4 = (Ret (job, None), st').
Proof.
  intros H. unfold setup in H. cbv zeta in H. unfold deref in H. run.
  match goal with
  | Hip : ip _ _ = (Ret (Ok ?a), ?st1),
    Hd : createDisk _ _ _ _ = (Ret (Ok (Some ?r, Some ?w)), ?st2),
    Hc : createConfig _ _ _ _ _ = (Ret (Ok ?c), ?st3),
    Hb : boot _ _ _ = (Ret (Ok (Some ?bj)), ?st4),
    Hw : waitJob _ _ _ _ = (Ret (?j, None), _) |- _ =>
      exists a, r, w, c, bj, j, st1, st2, st3, st4;
      repeat split; assumption
  end.
Qed.

Lemma Allocate_range_setup (image : ImageID) (password : string)
    (servers : list linodeServer) (st st' : State) (server : linodeServer) :
  Allocate_range image password servers st = (Ret (Ok server), st') ->
  exists s, In s servers /\ setup s image password st = (Ret (server, None), st').
Proof.
  induction servers as [|s rest IH]; cbn [Allocate_range]; intros H.
  - inversion H.
  - destruct (srv_Status s =? linodePoweredOff) eqn:E; cbn [negb] in H.
    + run. exists s. split; [left; reflexivity | assumption].
    + destruct (IH H) as (s' & Hin & Hs). exists s'. split; [right; exact Hin | exact Hs].
Qed.

(** X25.  An allocation that returns a server has sent, in this order and
    with nothing in between: the listing; the address request; when the
    catalogue was not done, the distributions up to three times and then
    the kernels up to three times; the disk batch with the ID of a
    distribution named after the system of the image; the creation of the
    configuration with the kernel of that same distribution and the two
    disks of the server; the boot request; and between one poll of the boot
    job and one poll per tick.  So it has sent no removal and no shutdown. *)
Theorem Allocate_success_requests (image : ImageID) (password : string)
    (st st' : State) (server : linodeServer) :
  Allocate image password st = (Ret (Ok server), st') ->
  exists d jobID i j k,
    d_Name d = SystemID image
    /\ (i <= 3)%nat /\ (j <= 3)%nat
    /\ (distrosDone (self st) = true -> i = 0%nat /\ j = 0%nat)
    /\ (1 <= k <= ticks)%nat
    /\ sent st'
       = (repeat (jobInfo_params server jobID) k
          ++ [ reboot_params server (srv_Config server);
               createConfig_params server (d_KernelID d) image
                 (srv_Root server) (srv_Swap server);
               createDisk_params server (d_ID d) image password ]
          ++ repeat kernels_params j ++ repeat distros_params i
          ++ [ip_params server; list_params] ++ sent st)%list.
Proof.
  intros H.
  assert (Hsetup : exists s,
             setup s image password (after list_params st) = (Ret (server, None), st')).
  { unfold Allocate in H. apply bind_inv in H. destruct H as (r & st0 & Hl & H).
    rewrite linode_list_run in Hl. inversion Hl as [[Hr Hst]]. clear Hl.
    rewrite <- Hr in H. subst st0.
    destruct (listed (provider (list_params :: sent st))) as [servers|e].
    - destruct (List.length servers =? 0)%nat.
      + apply ret_inv in H. destruct H as [H _]. discriminate.
      + apply Allocate_range_setup in H. destruct H as (s & _ & H). exists s. exact H.
    - apply ret_inv in H. destruct H as [H _]. discriminate. }
  destruct Hsetup as (s & Hs). apply setup_success_steps in Hs.
  destruct Hs as (a & rootJob & swapJob & configID & bootJob & job & st1 & st2 & st3 & st4
                  & Hip & Hd & Hc & Hserver & Hb & Hw).
  pose proof (ip_sent (setImg s image) (after list_params st)) as E1.
  rewrite Hip in E1. cbn [snd] in E1. subst st1.
  apply createDisk_success in Hd. destruct Hd as (d & st1 & Hres & ->).
  apply createConfig_success in Hc. destruct Hc as (d' & st2 & Hres' & ->).
  assert (Hdone : distrosDone (self (after (createDisk_params
                     (setAddr (setImg s image) (ip_IPAddress a)) (d_ID d) image password)
                     st1)) = true).
  { exact (distro_sets_done image _ st1 d Hres). }
  rewrite (distro_populated image _ Hdone) in Hres'. cbn [after self] in Hres'.
  rewrite (distro_returns image _ st1 d Hres) in Hres'.
  inversion Hres' as [[Hd' Hst2]]. subst d' st2. clear Hres'.
  pose proof (serverJob_sent server "reboot" (reboot_params server configID)
                (after (createConfig_params
                          (setSwap (setRoot (setAddr (setImg s image) (ip_IPAddress a))
                                      (dj_DiskID rootJob)) (dj_DiskID swapJob))
                          (d_KernelID d) image (dj_DiskID rootJob) (dj_DiskID swapJob))
                   (after (createDisk_params (setAddr (setImg s image) (ip_IPAddress a))
                             (d_ID d) image password) st1))) as E4.
  unfold boot in Hb. rewrite Hb in E4. cbn [snd] in E4. subst st4.
  unfold waitJob in Hw. apply waitJob_select_success in Hw. destruct Hw as (k & Hk & Hsent).
  destruct (distro_sent image (after (ip_params (setImg s image)) (after list_params st)))
    as (i & j & Hi & Hj & Hzero & Hfetch).
  rewrite Hres in Hfetch. cbn [snd] in Hfetch.
  exists d, (job_JobID bootJob), i, j, k.
  split; [exact (proj1 (distro_range_named _ _ _ (distro_returns image _ st1 d Hres)))|].
  split; [exact Hi|]. split; [exact Hj|]. split; [exact Hzero|]. split; [exact Hk|].
  rewrite Hsent. cbn [after sent]. rewrite Hfetch. cbn [after sent].
  subst server. reflexivity.
Qed.

End Linode.

(** ** The statements at sample inputs *)



Lemma distro_prefers_64bit_witness :
  distrosDone (self populated) = true
  /\ distro sampleSystemID (scripted []) "ubuntu-16.04" populated
     = (Ret (Ok ubuntu64), populated).
Proof.
  split; [reflexivity|].
  rewrite (distro_prefers_64bit sampleSystemID (scripted []) "ubuntu-16.04" populated);
    reflexivity.
Defined.


Lemma Reuse_ReuseData_witness :
  flat_parse (flat_emit (yaml_of_server sampleServer)) = inl (yaml_of_server sampleServer)
  /\ Reuse flat_parse flat_TypeError (ReuseData flat_emit sampleServer) "secret"
     = Ok (mkServer 101 "spread-1" 0 "10.0.0.7" "ubuntu-16.04" 31 11 12).
Proof.
  split; [vm_compute; reflexivity|].
  apply (proj1 (Reuse_ReuseData flat_emit flat_parse flat_TypeError) sampleServer "secret").
  vm_compute; reflexivity.
Defined.

Lemma Allocate_cases_witness :
  Allocate "spread" sampleSystemID sampleLabel (scripted allocationScript) 12
    "ubuntu-16.04" "secret" start
  = (Ret (Ok (mkServer 101 "spread-1" linodePoweredOff "203.0.113.9" "ubuntu-16.04"
                31 11 12)),
     snd (Allocate "spread" sampleSystemID sampleLabel (scripted allocationScript) 12
            "ubuntu-16.04" "secret" start))
  /\ exists pre s post,
       listed (scripted allocationScript (list_params :: sent start))
       = Ok (pre ++ s :: post)%list
       /\ forallb (fun s => negb (poweredOff s)) pre = true
       /\ poweredOff s = true
       /\ provisioned "spread" sampleSystemID sampleLabel (scripted allocationScript)
            "ubuntu-16.04" "secret" s
            (mkServer 101 "spread-1" linodePoweredOff "203.0.113.9" "ubuntu-16.04"
               31 11 12)
            (after list_params start).
Proof.
  split; [vm_compute; reflexivity|].
  eapply (proj2 (proj2 (proj2
            (Allocate_cases "spread" sampleSystemID sampleLabel
               (scripted allocationScript) 12 "ubuntu-16.04" "secret" start)))).
  vm_compute; reflexivity.
Defined.





(** ** Provider errors without a message *)

(** The batch reply holds a clean root sub-result for disk 11 and a
    swap sub-result whose error record has an empty message: [createDisk]
    panics with an index out of range in [linodeResult.err]; it returns no
    error, and the batch is the only request sent, so disk 11 is not
    removed. *)
Lemma createDisk_swap_error_without_message :
  createDisk "spread" sampleSystemID sampleLabel
    (scripted
       [ Decoded None
           (BodyDiskJobs
              [ mkDiskJobResult noErrors (Some (mkDiskJob 11 70));
                mkDiskJobResult noMessage None ]) ])
    idleServer "ubuntu-16.04" "secret" populated
  = (Panic IndexOutOfRange,
     after (createDisk_params sampleLabel idleServer 146 "ubuntu-16.04" "secret") populated).
Proof. vm_compute; reflexivity. Qed.

(** Two polls show a pending job, the deadline passes without a poll
    error, and the reply to the removal of the configuration carries an
    error record with an empty message: [waitJob] panics with an index out
    of range in [linodeResult.err]; no timeout error is returned and the
    removal of the two disks is never sent. *)
Lemma waitJob_rollback_error_without_message :
  waitJob "spread" sampleSystemID
    (scripted
       [ Decoded None (BodyJobInfo (mkJobInfoResult noErrors [pendingJob]));
         Decoded None (BodyJobInfo (mkJobInfoResult noErrors [pendingJob]));
         Decoded None (BodyResult noMessage) ])
    2 sampleServer "boot" 77 start
  = (Panic IndexOutOfRange,
     mkState emptyLinode
       [ removeConfig_params sampleServer 31;
         jobInfo_params sampleServer 77;
         jobInfo_params sampleServer 77 ]).
Proof. vm_compute; reflexivity. Qed.

(** The fetch of the distributions fails twice with a provider error
    and a third time with an error record whose message is empty:
    population panics with an index out of range in [linodeResult.err]
    where the last error was to be returned, and so does the resolution
    that started it. *)
Lemma cacheDistros_third_error_without_message :
  cacheDistros
    (scripted
       [ Decoded None (BodyDistros (mkDistrosResult busy []));
         Decoded None (BodyDistros (mkDistrosResult busy []));
         Decoded None (BodyDistros (mkDistrosResult noMessage [])) ])
    start
  = (Panic IndexOutOfRange,
     mkState emptyLinode [distros_params; distros_params; distros_params])
  /\ fst (distro sampleSystemID
            (scripted
               [ Decoded None (BodyDistros (mkDistrosResult busy []));
                 Decoded None (BodyDistros (mkDistrosResult busy []));
                 Decoded None (BodyDistros (mkDistrosResult noMessage [])) ])
            "ubuntu-16.04" start)
     = Panic IndexOutOfRange.
Proof. split; vm_compute; reflexivity. Qed.

(** The reply to the shutdown request carries an error record with an
    empty message: [Discard] panics with an index out of range in
    [linodeResult.err]; it returns no error, and the shutdown is the only
    request sent, so neither the configuration nor the disks are removed. *)
Lemma Discard_shutdown_error_without_message :
  Discard "spread" sampleSystemID
    (scripted [ Decoded None (BodyJob (mkJobResult noMessage None)) ])
    sampleServer start
  = (Panic IndexOutOfRange, mkState emptyLinode [shutdown_params sampleServer]).
Proof. vm_compute; reflexivity. Qed.

(** ** Further statements at sample inputs *)

Lemma catalogue_never_changes_witness :
  distrosDone (self populated) = true
  /\ self (snd (Allocate "spread" sampleSystemID sampleLabel (scripted bootRefused) 2
                  "ubuntu-16.04" "secret" populated))
     = self populated.
Proof.
  split; [reflexivity|].
  apply (proj1 (catalogue_never_changes "spread" sampleSystemID sampleLabel
                  (scripted bootRefused) 2)).
  reflexivity.
Defined.

Lemma createDisk_two_clean_witness :
  createDisk "spread" sampleSystemID sampleLabel (scripted twoDisks)
    idleServer "ubuntu-16.04" "secret" populated
  = (Ret (Ok (Some (mkDiskJob 11 70), Some (mkDiskJob 12 71))),
     after (createDisk_params sampleLabel idleServer 146 "ubuntu-16.04" "secret") populated).
Proof.
  apply (createDisk_two_clean "spread" sampleSystemID sampleLabel (scripted twoDisks)
           idleServer "ubuntu-16.04" "secret" populated populated ubuntu64
           rootResult swapResult [mkDiskJobResult busy None]);
    vm_compute; reflexivity.
Defined.

Lemma createDisk_lone_root_witness :
  createDisk "spread" sampleSystemID sampleLabel (scripted loneRoot)
    idleServer "ubuntu-16.04" "secret" populated
  = (Ret (Err (Errorf "cannot create Linode disk with ubuntu-16.04: <nil>")),
     after (removeDisks_params idleServer [11])
       (after (createDisk_params sampleLabel idleServer 146 "ubuntu-16.04" "secret")
          populated)).
Proof.
  assert (Hd : distro sampleSystemID (scripted loneRoot) "ubuntu-16.04" populated
               = (Ret (Ok ubuntu64), populated)) by (vm_compute; reflexivity).
  pose proof (createDisk_lone_root "spread" sampleSystemID sampleLabel (scripted loneRoot)
                idleServer "ubuntu-16.04" "secret" populated populated
                (after (removeDisks_params idleServer [11])
                   (after (createDisk_params sampleLabel idleServer 146 "ubuntu-16.04"
                             "secret") populated))
                ubuntu64 rootResult (mkDiskJob 11 70) None Hd) as H.
  cbv zeta in H.
  apply (H ltac:(vm_compute; reflexivity) ltac:(vm_compute; reflexivity)
           ltac:(vm_compute; reflexivity) ltac:(vm_compute; reflexivity)).
Defined.

Lemma createDisk_root_error_witness :
  createDisk "spread" sampleSystemID sampleLabel (scripted rootRefused)
    idleServer "ubuntu-16.04" "secret" populated
  = (Ret (Err (Errorf "cannot create Linode disk with ubuntu-16.04: linode busy")),
     after (createDisk_params sampleLabel idleServer 146 "ubuntu-16.04" "secret") populated).
Proof.
  apply (createDisk_root_error "spread" sampleSystemID sampleLabel (scripted rootRefused)
           idleServer "ubuntu-16.04" "secret" populated populated ubuntu64
           (mkDiskJobResult busy None) [swapResult] (Errorf "linode busy"));
    vm_compute; reflexivity.
Defined.

Lemma unknown_image_sends_nothing_witness :
  createDisk "spread" sampleSystemID sampleLabel (scripted [disksCreated])
    idleServer "fedora-23" "secret" populated
  = (Ret (Err (Errorf "cannot find system %!s(MISSING) in Linode")), populated)
  /\ createConfig "spread" sampleSystemID sampleLabel (scripted [disksCreated])
       idleServer "fedora-23" 11 12 populated
     = (Ret (Err (Errorf "cannot find system %!s(MISSING) in Linode")), populated).
Proof.
  apply (unknown_image_sends_nothing "spread" sampleSystemID sampleLabel
           (scripted [disksCreated]) idleServer "fedora-23" "secret" 11 12 populated);
    vm_compute; reflexivity.
Defined.

Lemma removeDisks_results_witness :
  removeDisks "spread" sampleSystemID (scripted secondRemovalFails) sampleServer [11; 12; 13]
    start
  = (Ret (Some (Errorf
                  "cannot remove disk on spread:ubuntu-16.04 (spread-1): linode busy")),
     after (removeDisks_params sampleServer [11; 12; 13]) start)
  /\ removeDisks "spread" sampleSystemID (scripted noSubResults) sampleServer [11; 12] start
     = (Ret None, after (removeDisks_params sampleServer [11; 12]) start).
Proof.
  split.
  - pose proof (removeDisks_results "spread" sampleSystemID (scripted secondRemovalFails)
                  sampleServer [11; 12; 13] start) as H.
    cbv zeta in H. destruct H as (_ & _ & H).
    apply (H [noErrors] busy [oneError 4 "Not found"] (Errorf "linode busy"));
      vm_compute; reflexivity.
  - pose proof (removeDisks_results "spread" sampleSystemID (scripted noSubResults)
                  sampleServer [11; 12] start) as H.
    cbv zeta in H. destruct H as (_ & H & _).
    apply H; vm_compute; reflexivity.
Defined.

Lemma jobInfo_results_witness :
  jobInfo "spread" sampleSystemID (scripted noJobs) sampleServer 77 start
  = (Ret (Err (Errorf
                 "cannot get job details for spread:ubuntu-16.04 (spread-1): empty result")),
     after (jobInfo_params sampleServer 77) start).
Proof.
  pose proof (jobInfo_results "spread" sampleSystemID (scripted noJobs) sampleServer 77
                start) as H.
  cbv zeta in H. destruct H as (_ & H).
  apply (H ltac:(vm_compute; reflexivity) ltac:(vm_compute; reflexivity)).
Defined.

Lemma ip_results_witness :
  ip "spread" sampleSystemID (scripted [addresses]) sampleServer start
  = (Ret (Ok publicIP), after (ip_params sampleServer) start)
  /\ ip "spread" sampleSystemID (scripted onlyPrivate) sampleServer start
     = (Ret (Err (Errorf "cannot find public IP for spread:ubuntu-16.04 (spread-1)")),
        after (ip_params sampleServer) start)
  /\ ip "spread" sampleSystemID (scripted []) sampleServer start
     = (Ret (Err (Errorf "cannot perform Linode request: connection refused")),
        after (ip_params sampleServer) start).
Proof.
  split; [|split].
  - pose proof (ip_results "spread" sampleSystemID (scripted [addresses]) sampleServer
                  start) as H.
    cbv zeta in H. destruct H as (_ & H).
    apply (H ltac:(vm_compute; reflexivity) ltac:(vm_compute; reflexivity)).
  - pose proof (ip_results "spread" sampleSystemID (scripted onlyPrivate) sampleServer
                  start) as H.
    cbv zeta in H. destruct H as (_ & H).
    apply (H ltac:(vm_compute; reflexivity) ltac:(vm_compute; reflexivity)).
  - pose proof (ip_results "spread" sampleSystemID (scripted []) sampleServer start) as H.
    cbv zeta in H. destruct H as (H & _).
    apply H. vm_compute; reflexivity.
Defined.

Lemma distro_returns_named_witness :
  distro sampleSystemID (scripted catalogScript) "ubuntu-16.04" start
  = (Ret (Ok ubuntu64), snd (distro sampleSystemID (scripted catalogScript)
                               "ubuntu-16.04" start))
  /\ d_Name ubuntu64 = sampleSystemID "ubuntu-16.04"
  /\ In ubuntu64
       (distrosCache
          (self (snd (distro sampleSystemID (scripted catalogScript) "ubuntu-16.04" start)))).
Proof.
  assert (H : distro sampleSystemID (scripted catalogScript) "ubuntu-16.04" start
              = (Ret (Ok ubuntu64),
                 snd (distro sampleSystemID (scripted catalogScript) "ubuntu-16.04" start)))
    by (vm_compute; reflexivity).
  split; [exact H|].
  exact (distro_returns_named sampleSystemID (scripted catalogScript) "ubuntu-16.04"
           start _ ubuntu64 H).
Defined.

Lemma cacheDistros_kernel_minus_one_witness :
  lastKernel latest64bit minusOneKernels
  = Some (mkKernel (-1) 1 0 1 "Latest 64 bit (4.5.0-x86_64-linode65)")
  /\ fst (cacheDistros (scripted minusOneScript) start)
     = Ret (Some (Errorf "cannot find latest Linode kernel"))
  /\ kernelsCache (self (snd (cacheDistros (scripted minusOneScript) start)))
     = minusOneKernels.
Proof.
  split; [vm_compute; reflexivity|].
  rewrite (cacheDistros_kernel_minus_one (scripted minusOneScript) start
             (snd (distros_retry (scripted minusOneScript) 3 None start))
             (snd (kernels_retry (scripted minusOneScript) 3 None
                     (snd (distros_retry (scripted minusOneScript) 3 None start))))
             (mkKernel (-1) 1 0 1 "Latest 64 bit (4.5.0-x86_64-linode65)")).
  - split; vm_compute; reflexivity.
  - vm_compute; reflexivity.
  - vm_compute; reflexivity.
  - left. vm_compute; reflexivity.
  - reflexivity.
Defined.

Lemma setup_config_failure_witness :
  setup "spread" sampleSystemID sampleLabel (scripted configRefused) 2
    idleServer "ubuntu-16.04" "secret" populated
  = (Ret (mkServer 101 "spread-1" linodePoweredOff "203.0.113.9" "ubuntu-16.04" 0 11 12,
          Some (Errorf ("cannot create config on spread:ubuntu-16.04 (spread-1) "
                        ++ "with ubuntu-16.04: linode busy"))),
     mkState (self populated)
       [ removeDisks_params idleServer [11; 12];
         createConfig_params sampleLabel idleServer 7 "ubuntu-16.04" 11 12;
         createDisk_params sampleLabel idleServer 146 "ubuntu-16.04" "secret";
         ip_params idleServer ]).
Proof.
  pose proof (setup_config_failure "spread" sampleSystemID sampleLabel
                (scripted configRefused) 2 idleServer "ubuntu-16.04" "secret"
                populated
                (mkState (self populated) [ip_params idleServer])
                (mkState (self populated)
                   [ createDisk_params sampleLabel idleServer 146 "ubuntu-16.04" "secret";
                     ip_params idleServer ])
                (mkState (self populated)
                   [ createConfig_params sampleLabel idleServer 7 "ubuntu-16.04" 11 12;
                     createDisk_params sampleLabel idleServer 146 "ubuntu-16.04" "secret";
                     ip_params idleServer ])
                publicIP (mkDiskJob 11 70) (mkDiskJob 12 71)
                (Errorf ("cannot create config on spread:ubuntu-16.04 (spread-1) "
                         ++ "with ubuntu-16.04: linode busy"))) as H.
  cbv zeta in H.
  rewrite (H ltac:(vm_compute; reflexivity) ltac:(vm_compute; reflexivity)
             ltac:(vm_compute; reflexivity)).
  vm_compute; reflexivity.
Defined.

Lemma setup_boot_refused_witness :
  configuredAt "spread" sampleSystemID sampleLabel (scripted bootRefused)
    "ubuntu-16.04" "secret" idleServer configuredServer populated
    (mkState (self populated)
       [ createConfig_params sampleLabel idleServer 7 "ubuntu-16.04" 11 12;
         createDisk_params sampleLabel idleServer 146 "ubuntu-16.04" "secret";
         ip_params idleServer ])
  /\ setup "spread" sampleSystemID sampleLabel (scripted bootRefused) 2
       idleServer "ubuntu-16.04" "secret" populated
     = (Ret (configuredServer,
             Some (Errorf "cannot reboot spread:ubuntu-16.04 (spread-1): linode busy")),
        mkState (self populated)
          [ removeDisks_params idleServer [11; 12];
            removeConfig_params idleServer 31;
            reboot_params idleServer 31;
            createConfig_params sampleLabel idleServer 7 "ubuntu-16.04" 11 12;
            createDisk_params sampleLabel idleServer 146 "ubuntu-16.04" "secret";
            ip_params idleServer ]).
Proof.
  assert (Hconf : configuredAt "spread" sampleSystemID sampleLabel (scripted bootRefused)
                    "ubuntu-16.04" "secret" idleServer configuredServer populated
                    (mkState (self populated)
                       [ createConfig_params sampleLabel idleServer 7 "ubuntu-16.04" 11 12;
                         createDisk_params sampleLabel idleServer 146 "ubuntu-16.04"
                           "secret";
                         ip_params idleServer ])).
  { exists publicIP, (mkDiskJob 11 70), (mkDiskJob 12 71), 31,
      (mkState (self populated) [ip_params idleServer]),
      (mkState (self populated)
         [ createDisk_params sampleLabel idleServer 146 "ubuntu-16.04" "secret";
           ip_params idleServer ]).
    repeat split; vm_compute; reflexivity. }
  split; [exact Hconf|].
  refine (proj1 (setup_boot_refused "spread" sampleSystemID sampleLabel
                   (scripted bootRefused) 2 "ubuntu-16.04" "secret" idleServer
                   configuredServer populated _ _ _ _
                   (Errorf "cannot reboot spread:ubuntu-16.04 (spread-1): linode busy")
                   None None Hconf _ _ _));
    vm_compute; reflexivity.
Defined.

Lemma setup_timeout_removes_twice_witness :
  setup "spread" sampleSystemID sampleLabel (scripted bootTimesOut) 2
    idleServer "ubuntu-16.04" "secret" populated
  = (Ret (configuredServer,
          Some (Errorf "timeout waiting for spread:ubuntu-16.04 (spread-1) to boot")),
     mkState (self populated)
       [ removeDisks_params idleServer [11; 12];
         removeConfig_params idleServer 31;
         removeDisks_params idleServer [11; 12];
         removeConfig_params idleServer 31;
         jobInfo_params idleServer 77;
         jobInfo_params idleServer 77;
         reboot_params idleServer 31;
         createConfig_params sampleLabel idleServer 7 "ubuntu-16.04" 11 12;
         createDisk_params sampleLabel idleServer 146 "ubuntu-16.04" "secret";
         ip_params idleServer ]).
Proof.
  assert (Hconf : configuredAt "spread" sampleSystemID sampleLabel (scripted bootTimesOut)
                    "ubuntu-16.04" "secret" idleServer configuredServer populated
                    (mkState (self populated)
                       [ createConfig_params sampleLabel idleServer 7 "ubuntu-16.04" 11 12;
                         createDisk_params sampleLabel idleServer 146 "ubuntu-16.04"
                           "secret";
                         ip_params idleServer ])).
  { exists publicIP, (mkDiskJob 11 70), (mkDiskJob 12 71), 31,
      (mkState (self populated) [ip_params idleServer]),
      (mkState (self populated)
         [ createDisk_params sampleLabel idleServer 146 "ubuntu-16.04" "secret";
           ip_params idleServer ]).
    repeat split; vm_compute; reflexivity. }
  assert (Hpolls : polls "spread" sampleSystemID (scripted bootTimesOut)
                     configuredServer "boot" 77 2 None
                     (mkState (self populated)
                        [ reboot_params idleServer 31;
                          createConfig_params sampleLabel idleServer 7 "ubuntu-16.04" 11 12;
                          createDisk_params sampleLabel idleServer 146 "ubuntu-16.04"
                            "secret";
                          ip_params idleServer ])
                     None
                     (mkState (self populated)
                        [ jobInfo_params idleServer 77;
                          jobInfo_params idleServer 77;
                          reboot_params idleServer 31;
                          createConfig_params sampleLabel idleServer 7 "ubuntu-16.04" 11 12;
                          createDisk_params sampleLabel idleServer 146 "ubuntu-16.04"
                            "secret";
                          ip_params idleServer ])).
  { eapply polls_pending; [vm_compute; reflexivity | reflexivity |].
    eapply polls_pending; [vm_compute; reflexivity | reflexivity |].
    apply polls_none. }
  refine (proj1 (setup_timeout_removes_twice "spread" sampleSystemID sampleLabel
                   (scripted bootTimesOut) 2 "ubuntu-16.04" "secret" idleServer
                   configuredServer populated _ _ _ _ _ _ _ (mkJob 77)
                   None None None None Hconf _ Hpolls _ _ _ _));
    vm_compute; reflexivity.
Defined.

Lemma setup_missing_data_witness :
  setup "spread" sampleSystemID sampleLabel (scripted rootDataMissing) 2
    idleServer "ubuntu-16.04" "secret" populated
  = (Panic NilDereference,
     mkState (self populated)
       [ createDisk_params sampleLabel idleServer 146 "ubuntu-16.04" "secret";
         ip_params idleServer ])
  /\ setup "spread" sampleSystemID sampleLabel (scripted bootDataMissing) 2
       idleServer "ubuntu-16.04" "secret" populated
     = (Panic NilDereference,
        mkState (self populated)
          [ reboot_params idleServer 31;
            createConfig_params sampleLabel idleServer 7 "ubuntu-16.04" 11 12;
            createDisk_params sampleLabel idleServer 146 "ubuntu-16.04" "secret";
            ip_params idleServer ]).
Proof.
  split.
  - apply (proj1 (setup_missing_data "spread" sampleSystemID sampleLabel
                    (scripted rootDataMissing) 2 idleServer "ubuntu-16.04" "secret"
                    populated)
             publicIP (mkState (self populated) [ip_params idleServer]) _
             None (Some (mkDiskJob 12 71)));
      [vm_compute; reflexivity | vm_compute; reflexivity | left; reflexivity].
  - assert (Hconf : configuredAt "spread" sampleSystemID sampleLabel
                      (scripted bootDataMissing) "ubuntu-16.04" "secret" idleServer
                      configuredServer populated
                      (mkState (self populated)
                         [ createConfig_params sampleLabel idleServer 7 "ubuntu-16.04"
                             11 12;
                           createDisk_params sampleLabel idleServer 146 "ubuntu-16.04"
                             "secret";
                           ip_params idleServer ])).
    { exists publicIP, (mkDiskJob 11 70), (mkDiskJob 12 71), 31,
        (mkState (self populated) [ip_params idleServer]),
        (mkState (self populated)
           [ createDisk_params sampleLabel idleServer 146 "ubuntu-16.04" "secret";
             ip_params idleServer ]).
      repeat split; vm_compute; reflexivity. }
    apply (proj2 (setup_missing_data "spread" sampleSystemID sampleLabel
                    (scripted bootDataMissing) 2 idleServer "ubuntu-16.04" "secret"
                    populated)
             configuredServer _ _ Hconf).
    vm_compute; reflexivity.
Defined.



Lemma disks_and_config_share_entry_witness :
  createDisk "spread" sampleSystemID sampleLabel (scripted [disksCreated; configCreated])
    idleServer "ubuntu-16.04" "secret" populated
  = (Ret (Ok (Some (mkDiskJob 11 70), Some (mkDiskJob 12 71))),
     after (createDisk_params sampleLabel idleServer 146 "ubuntu-16.04" "secret") populated)
  /\ exists d st1,
       distro sampleSystemID (scripted [disksCreated; configCreated]) "ubuntu-16.04"
         populated
       = (Ret (Ok d), st1)
       /\ after (createDisk_params sampleLabel idleServer 146 "ubuntu-16.04" "secret")
            populated
          = after (createDisk_params sampleLabel idleServer (d_ID d) "ubuntu-16.04"
                     "secret") st1
       /\ forall server' rootID swapID,
            snd (createConfig "spread" sampleSystemID sampleLabel
                   (scripted [disksCreated; configCreated]) server' "ubuntu-16.04"
                   rootID swapID
                   (after (createDisk_params sampleLabel idleServer 146 "ubuntu-16.04"
                             "secret") populated))
            = after (createConfig_params sampleLabel server' (d_KernelID d) "ubuntu-16.04"
                       rootID swapID)
                (after (createDisk_params sampleLabel idleServer 146 "ubuntu-16.04"
                          "secret") populated).
Proof.
  assert (H : createDisk "spread" sampleSystemID sampleLabel
                (scripted [disksCreated; configCreated])
                idleServer "ubuntu-16.04" "secret" populated
              = (Ret (Ok (Some (mkDiskJob 11 70), Some (mkDiskJob 12 71))),
                 after (createDisk_params sampleLabel idleServer 146 "ubuntu-16.04"
                          "secret") populated)) by (vm_compute; reflexivity).
  split; [exact H|].
  exact (disks_and_config_share_entry "spread" sampleSystemID sampleLabel
           (scripted [disksCreated; configCreated]) idleServer "ubuntu-16.04" "secret"
           populated _ _ H).
Defined.

Lemma createDisk_hides_transport_error_witness :
  fst (do_result (scripted [] [createDisk_params sampleLabel idleServer 146 "ubuntu-16.04"
                                 "secret"]))
  = Some (Errorf "cannot perform Linode request: connection refused")
  /\ createDisk "spread" sampleSystemID sampleLabel (scripted [])
       idleServer "ubuntu-16.04" "secret" populated
     = (Ret (Err (Errorf "cannot create Linode disk with ubuntu-16.04: empty batch result")),
        after (createDisk_params sampleLabel idleServer 146 "ubuntu-16.04" "secret")
          populated).
Proof.
  split; [reflexivity|].
  apply (proj2 (createDisk_hides_transport_error "spread" sampleSystemID sampleLabel
                  (scripted []) idleServer "ubuntu-16.04" "secret" populated populated
                  ubuntu64 ltac:(vm_compute; reflexivity) ltac:(vm_compute; reflexivity))).
Defined.

Lemma Allocate_lists_first_witness :
  Allocate "spread" sampleSystemID sampleLabel (scripted []) 2 "ubuntu-16.04" "secret" start
  = (Ret (Err (Errorf "cannot perform Linode request: connection refused")),
     after list_params start).
Proof.
  apply (proj2 (Allocate_lists_first "spread" sampleSystemID sampleLabel (scripted []) 2
                  "ubuntu-16.04" "secret" start)).
  vm_compute; reflexivity.
Defined.

Lemma Allocate_success_requests_witness :
  Allocate "spread" sampleSystemID sampleLabel (scripted allocationScript) 12
    "ubuntu-16.04" "secret" start
  = (Ret (Ok configuredServer),
     snd (Allocate "spread" sampleSystemID sampleLabel (scripted allocationScript) 12
            "ubuntu-16.04" "secret" start))
  /\ exists d jobID i j k,
       d_Name d = sampleSystemID "ubuntu-16.04"
       /\ (i <= 3)%nat /\ (j <= 3)%nat
       /\ (distrosDone (self start) = true -> i = 0%nat /\ j = 0%nat)
       /\ (1 <= k <= 12)%nat
       /\ sent (snd (Allocate "spread" sampleSystemID sampleLabel
                       (scripted allocationScript) 12 "ubuntu-16.04" "secret" start))
          = (repeat (jobInfo_params configuredServer jobID) k
             ++ [ reboot_params configuredServer (srv_Config configuredServer);
                  createConfig_params sampleLabel configuredServer (d_KernelID d)
                    "ubuntu-16.04" (srv_Root configuredServer) (srv_Swap configuredServer);
                  createDisk_params sampleLabel configuredServer (d_ID d) "ubuntu-16.04"
                    "secret" ]
             ++ repeat kernels_params j ++ repeat distros_params i
             ++ [ip_params configuredServer; list_params] ++ sent start)%list.
Proof.
  assert (H : Allocate "spread" sampleSystemID sampleLabel (scripted allocationScript) 12
                "ubuntu-16.04" "secret" start
              = (Ret (Ok configuredServer),
                 snd (Allocate "spread" sampleSystemID sampleLabel
                        (scripted allocationScript) 12 "ubuntu-16.04" "secret" start)))
    by (vm_compute; reflexivity).
  split; [exact H|].
  exact (Allocate_success_requests "spread" sampleSystemID sampleLabel
           (scripted allocationScript) 12 "ubuntu-16.04" "secret" start _
           configuredServer H).
Defined.
